(** * Blender debugger for VS Code: the path resolver, the attach poller
      and the dependency manager

    A shallow embedding of [__init__.py] and [dependency_manager.py].
    Python [str] values are Rocq strings, Python [int] values are [Z],
    [None | str] is [option string], dictionaries ([sys.modules],
    [os.environ]) are finite maps.  Everything the add-on obtains from its
    surroundings (the file system, [os.path], child processes, the import
    machinery) is a field of a record describing the host, so that every
    function below is an ordinary total function that can be evaluated. *)

From Stdlib Require Import ZArith String Ascii List Bool Lia.
From stdpp Require Import base option gmap strings list.
Import ListNotations.

Local Open Scope string_scope.
Local Open Scope Z_scope.

(** ** Python values *)

Module Py.

(** The exceptions that occur in the two source files. *)
Inductive exn :=
| ValueError (msg : string)
| ImportError (name : string)
| OSError (msg : string)
| UnicodeDecodeError
| CalledProcessError (returncode : Z) (cmd : list string)
| ModuleNotFoundError (name : string)
| RuntimeError (msg : string).

(** What a call produces: a value, or an exception on its way up. *)
Inductive result (A : Type) :=
| Ok (a : A)
| Raise (e : exn).
Arguments Ok {A} a.
Arguments Raise {A} e.

(** Truth value of a string: only the empty string is false. *)
Definition truthy (s : string) : bool :=
  match s with EmptyString => false | String _ _ => true end.

(** [x or d] for [x : None | str]. *)
Definition or_else (x : option string) (d : string) : string :=
  match x with
  | Some s => if truthy s then s else d
  | None => d
  end.

(** [s] with [pat] removed from its front, when [s] starts with [pat]. *)
Fixpoint strip_prefix (pat s : string) : option string :=
  match pat, s with
  | EmptyString, _ => Some s
  | String a p, String b t => if Ascii.eqb a b then strip_prefix p t else None
  | String _ _, EmptyString => None
  end.

(** The text that follows the leftmost occurrence of [pat] in [s]. *)
Fixpoint find_after (pat s : string) : option string :=
  match strip_prefix pat s with
  | Some rest => Some rest
  | None =>
      match s with
      | EmptyString => None
      | String _ t => find_after pat t
      end
  end.

(** [pat in s]. *)
Definition str_in (pat s : string) : bool :=
  match find_after pat s with Some _ => true | None => false end.

Definition code (c : ascii) : N := N_of_ascii c.

(** [str.isspace] on the code points a Rocq character can hold. *)
Definition isspace (c : ascii) : bool :=
  let n := code c in
  ((9 <=? n) && (n <=? 13) || (28 <=? n) && (n <=? 32)
   || (n =? 133) || (n =? 160))%N.

(** [str.rstrip()]: trailing white space removed. *)
Fixpoint rstrip (s : string) : string :=
  match s with
  | EmptyString => EmptyString
  | String c t =>
      match rstrip t with
      | EmptyString => if isspace c then EmptyString else String c EmptyString
      | t' => String c t'
      end
  end.

(** Line boundaries of [str.splitlines] other than the pair CR LF. *)
Definition is_linebreak (c : ascii) : bool :=
  let n := code c in
  ((10 <=? n) && (n <=? 13) || (28 <=? n) && (n <=? 30) || (n =? 133))%N.

(** [str.splitlines()] with the current line in [line]. *)
Fixpoint splitlines_from (line s : string) : list string :=
  match s with
  | EmptyString => if truthy line then [line] else []
  | String c t =>
      if (code c =? 13)%N then
        match t with
        | String c' t' =>
            if (code c' =? 10)%N then line :: splitlines_from EmptyString t'
            else line :: splitlines_from EmptyString t
        | EmptyString => [line]
        end
      else if is_linebreak c then line :: splitlines_from EmptyString t
      else splitlines_from (line +:+ String c EmptyString) t
  end.

Definition splitlines (s : string) : list string :=
  splitlines_from EmptyString s.

(** The part of [s] before its first line feed: what [.] can match. *)
Fixpoint upto_newline (s : string) : string :=
  match s with
  | EmptyString => EmptyString
  | String c t => if (code c =? 10)%N then EmptyString else String c (upto_newline t)
  end.

(** [re.search] for [pat] followed by one group that takes the rest of
    the line; the result is that group of the leftmost match. *)
Definition re_search_rest (pat s : string) : option string :=
  match find_after pat s with
  | Some rest => Some (upto_newline rest)
  | None => None
  end.

End Py.
Export Py.

(** ** [posixpath]: the [os.path] of a POSIX host *)

Module PosixPath.

Definition slash : ascii := "/"%char.

Fixpoint ends_with_slash (s : string) : bool :=
  match s with
  | EmptyString => false
  | String c EmptyString => Ascii.eqb c slash
  | String _ t => ends_with_slash t
  end.

Definition starts_with_slash (s : string) : bool :=
  match s with
  | String c _ => Ascii.eqb c slash
  | EmptyString => false
  end.

(** [posixpath.join(a, b)]. *)
Definition join (a b : string) : string :=
  if starts_with_slash b then b
  else if negb (truthy a) || ends_with_slash a then a +:+ b
  else a +:+ "/" +:+ b.

(** [s.split("/")] with the current component in [comp]. *)
Fixpoint split_slash (comp s : string) : list string :=
  match s with
  | EmptyString => [comp]
  | String c t =>
      if Ascii.eqb c slash then comp :: split_slash EmptyString t
      else split_slash (comp +:+ String c EmptyString) t
  end.

(** The loop of [normpath] over the components; [acc] is [new_comps]
    in reverse. *)
Fixpoint norm_comps (rooted : bool) (acc comps : list string) : list string :=
  match comps with
  | [] => rev acc
  | comp :: rest =>
      if String.eqb comp EmptyString || String.eqb comp "." then norm_comps rooted acc rest
      else if negb (String.eqb comp "..") then norm_comps rooted (comp :: acc) rest
      else
        match acc with
        | [] => if rooted then norm_comps rooted acc rest
                else norm_comps rooted (comp :: acc) rest
        | last :: acc' =>
            if String.eqb last ".." then norm_comps rooted (comp :: acc) rest
            else norm_comps rooted acc' rest
        end
  end.

Fixpoint join_slash (comps : list string) : string :=
  match comps with
  | [] => EmptyString
  | [c] => c
  | c :: rest => c +:+ "/" +:+ join_slash rest
  end.

(** Number of slashes [normpath] keeps in front: 0, 1 or 2. *)
Definition initial_slashes (path : string) : string :=
  match path with
  | String a (String b (String c _)) =>
      if Ascii.eqb a slash then
        if Ascii.eqb b slash && negb (Ascii.eqb c slash) then "//" else "/"
      else EmptyString
  | String a (String b EmptyString) =>
      if Ascii.eqb a slash then if Ascii.eqb b slash then "//" else "/" else EmptyString
  | String a EmptyString => if Ascii.eqb a slash then "/" else EmptyString
  | EmptyString => EmptyString
  end.

(** [posixpath.normpath(path)]. *)
Definition normpath (path : string) : string :=
  if negb (truthy path) then "."
  else
    let init := initial_slashes path in
    let comps := norm_comps (truthy init) [] (split_slash EmptyString path) in
    let path' := init +:+ join_slash comps in
    if truthy path' then path' else ".".

(** The prefix of [s] up to and including its last slash. *)
Fixpoint head_upto_last_slash (s : string) : string :=
  match s with
  | EmptyString => EmptyString
  | String c t =>
      match head_upto_last_slash t with
      | EmptyString => if Ascii.eqb c slash then String c EmptyString else EmptyString
      | h => String c h
      end
  end.

Fixpoint all_slashes (s : string) : bool :=
  match s with
  | EmptyString => true
  | String c t => Ascii.eqb c slash && all_slashes t
  end.

Fixpoint rstrip_slash (s : string) : string :=
  match s with
  | EmptyString => EmptyString
  | String c t =>
      match rstrip_slash t with
      | EmptyString => if Ascii.eqb c slash then EmptyString else String c EmptyString
      | t' => String c t'
      end
  end.

(** [posixpath.dirname(p)]. *)
Definition dirname (p : string) : string :=
  let head := head_upto_last_slash p in
  if truthy head && negb (all_slashes head) then rstrip_slash head else head.

End PosixPath.

(** ** What the add-on uses of the host's [bpy] module *)

Module Bpy.

(** The sets an operator method returns. *)
Inductive Status := CANCELLED | PASS_THROUGH | FINISHED | RUNNING_MODAL.

(** The property declarations of [bpy.props] that the add-on uses. *)
Inductive Property :=
| StringProperty (name subtype default : string)
| IntProperty (name : string) (default : Z) (min max : option Z).

End Bpy.

(** ** [__init__.py]: the path resolver *)

Module Resolver.

(** The first argument of [subprocess.Popen]: a command line or an
    argument list (both are passed with [shell=True]). *)
Inductive Command :=
| CommandLine (line : string)
| CommandArgs (args : list string).

(** What [communicate()[0]] holds: bytes that are the UTF-8 encoding of
    a text, or bytes that are not valid UTF-8. *)
Inductive Stdout :=
| Utf8 (text : string)
| NotUtf8.

(** [subprocess.Popen(...)] either raises or gives a process whose
    standard output is then read to its end. *)
Inductive PopenOutcome :=
| PopenRaises (e : exn)
| PopenStdout (out : Stdout).

(** The surroundings [check_for_debugpy] looks at. *)
Record Host := {
  get_platlib : option string;          (* sysconfig.get_path("platlib") *)
  sys_path : list string;               (* sys.path *)
  path_exists : string -> bool;         (* os.path.exists *)
  normpath : string -> string;          (* os.path.normpath *)
  join : string -> string -> string;    (* os.path.join, two arguments *)
  dirname : string -> string;           (* os.path.dirname *)
  popen : Command -> PopenOutcome;      (* subprocess.Popen and communicate *)
}.

(** What a run does besides returning: the processes it starts and the
    exceptions it prints. *)
Inductive Event :=
| Spawned (c : Command)
| Printed (e : exn).

Definition NOT_FOUND_MESSAGE : string := "debugpy not found".

(** [os.path.join(a, b1, ..., bn)]: the components are joined from left
    to right. *)
Definition joins (h : Host) (a : string) (bs : list string) : string :=
  fold_left (join h) bs a.

(** [str(bytes, "utf-8")]. *)
Definition decode (out : Stdout) : result string :=
  match out with
  | Utf8 text => Ok text
  | NotUtf8 => Raise UnicodeDecodeError
  end.

(** Block 1: the platform library path. *)
Definition platlib_probe (h : Host) : option string :=
  match get_platlib h with
  | Some path =>
      if truthy path then
        let path := normpath h path in
        if path_exists h (join h path "debugpy") then Some path else None
      else None
  | None => None
  end.

(** Block 2: the loop over [sys.path]. *)
Fixpoint sys_path_probe (h : Host) (entries : list string) : option string :=
  match entries with
  | [] => None
  | path :: rest =>
      let path := normpath h path in
      if path_exists h (join h path "debugpy") then Some path
      else if path_exists h (joins h path ["site-packages"; "debugpy"])
      then Some (join h path "site-packages")
      else if path_exists h (joins h path ["lib"; "site-packages"; "debugpy"])
      then Some (joins h path ["lib"; "site-packages"])
      else sys_path_probe h rest
  end.

(** Block 3, the loop over the lines that contain the field name. *)
Fixpoint location_probe (h : Host) (lines : list string) : option string :=
  match lines with
  | [] => None
  | x :: rest =>
      match re_search_rest "Location: " x with
      | Some g =>
          let m := normpath h (rstrip g) in
          if path_exists h (join h m "debugpy") then Some m
          else location_probe h rest
      | None => location_probe h rest
      end
  end.

Definition pip_show : Command := CommandLine "pip show debugpy".

(** Block 3: ask the package manager. *)
Definition pip_probe (h : Host) : result (option string) * list Event :=
  match popen h pip_show with
  | PopenRaises e => (Ok None, [Spawned pip_show; Printed e])
  | PopenStdout out =>
      match decode out with
      | Raise e => (Raise e, [Spawned pip_show])
      | Ok pip_info =>
          (Ok (location_probe h
                 (List.filter (str_in "Location: ") (splitlines pip_info))),
           [Spawned pip_show])
      end
  end.

Definition checks : list Command :=
  [CommandArgs ["where"; "python"];
   CommandArgs ["whereis"; "python"];
   CommandArgs ["which"; "python"]].

(** Block 4, the loop over the lines one lookup command printed. *)
Fixpoint python_probe (h : Host) (lines : list string) : option string :=
  match lines with
  | [] => None
  | path :: rest =>
      let path := dirname h (normpath h path) in
      if path_exists h (joins h path ["lib"; "site-packages"; "debugpy"])
      then Some (joins h path ["lib"; "site-packages"])
      else python_probe h rest
  end.

(** Block 4: the loop over the lookup commands. *)
Fixpoint system_probe (h : Host) (commands : list Command)
  : result (option string) * list Event :=
  match commands with
  | [] => (Ok None, [])
  | command :: rest =>
      match popen h command with
      | PopenRaises e =>
          let '(r, evs) := system_probe h rest in
          (r, Spawned command :: Printed e :: evs)
      | PopenStdout out =>
          match decode out with
          | Raise e => (Raise e, [Spawned command])
          | Ok location =>
              match python_probe h (splitlines location) with
              | Some path => (Ok (Some path), [Spawned command])
              | None =>
                  let '(r, evs) := system_probe h rest in
                  (r, Spawned command :: evs)
              end
          end
      end
  end.

(** [check_for_debugpy()]: the value returned or the exception raised,
    and the events of the run in order. *)
Definition check_for_debugpy (h : Host) : result string * list Event :=
  match platlib_probe h with
  | Some path => (Ok path, [])
  | None =>
  match sys_path_probe h (sys_path h) with
  | Some path => (Ok path, [])
  | None =>
  match pip_probe h with
  | (Raise e, evs) => (Raise e, evs)
  | (Ok (Some m), evs) => (Ok m, evs)
  | (Ok None, evs) =>
  match system_probe h checks with
  | (Raise e, evs') => (Raise e, (evs ++ evs')%list)
  | (Ok (Some path), evs') => (Ok path, (evs ++ evs')%list)
  | (Ok None, evs') => (Ok NOT_FOUND_MESSAGE, (evs ++ evs')%list)
  end end end end.

End Resolver.

(** ** [__init__.py]: the preferences and the attach-confirmation poller *)

Module Debugger.
Import Bpy Resolver.

(** The annotations of [DebuggerPreferences], in the order of the class
    body.  The default of [path] is computed by the resolver when the
    class body runs. *)
Definition DebuggerPreferences (h : Host) : result (list (string * Property)) :=
  match fst (check_for_debugpy h) with
  | Raise e => Raise e
  | Ok found =>
      Ok [("path",
           StringProperty "Location of debugpy (site-packages folder)" "DIR_PATH" found);
          ("timeout", IntProperty "Timeout" 20 None None);
          ("port", IntProperty "Port" 5678 (Some 0) (Some 65535))]
  end.

(** The values an integer property accepts: those between its bounds,
    a missing bound being that of a 32-bit signed integer. *)
Definition int_admits (min max : option Z) (v : Z) : bool :=
  (default (- 2 ^ 31) min <=? v) && (v <=? default (2 ^ 31 - 1) max).

Definition admits (p : Property) (v : Z) : bool :=
  match p with
  | IntProperty _ _ min max => int_admits min max v
  | StringProperty _ _ _ => false
  end.

(** The stored preference values. *)
Record Preferences := {
  path : string;
  timeout : Z;
  port : Z;
}.

(** The lines the poller prints. *)
Inductive Line :=
| LineWaiting (port : Z)
| LineTimedOut
| LineAttached
| LineCancelled.

(** [check_done(i, modal_limit, prefs)]; [is_client_connected] is what
    [debugpy.is_client_connected()] answers when it is asked. *)
Definition check_done (i modal_limit : Z) (prefs : Preferences)
    (is_client_connected : bool) : Status * list Line :=
  let waiting :=
    if (i =? 0) || (i mod 60 =? 0) then [LineWaiting (port prefs)] else [] in
  if i >? modal_limit then (CANCELLED, (waiting ++ [LineTimedOut])%list)
  else if negb is_client_connected then (PASS_THROUGH, waiting)
  else (FINISHED, (waiting ++ [LineAttached])%list).

(** The instance attributes of [DebuggerCheck]. *)
Record DebuggerCheck := {
  timer : option nat;
  count : Z;
  modal_limit : Z;
}.

(** The class attributes: the state of a fresh instance. *)
Definition DebuggerCheck_new : DebuggerCheck :=
  {| timer := None; count := 0; modal_limit := 20 * 60 |}.

(** The host's window manager, as far as timers go. *)
Record WindowManager := {
  timers : list nat;
  next_timer : nat;
}.

Definition event_timer_add (wm : WindowManager) : nat * WindowManager :=
  (next_timer wm,
   {| timers := next_timer wm :: timers wm; next_timer := S (next_timer wm) |}).

Definition event_timer_remove (wm : WindowManager) (t : option nat) : WindowManager :=
  match t with
  | Some t => {| timers := List.filter (fun u => negb (Nat.eqb u t)) (timers wm);
                 next_timer := next_timer wm |}
  | None => wm
  end.

(** [DebuggerCheck.modal(self, context, event)]. *)
Definition modal (self : DebuggerCheck) (event_type : string)
    (prefs : Preferences) (is_client_connected : bool)
  : Status * list Line * DebuggerCheck :=
  let self := {| timer := timer self; count := count self + 1;
                 modal_limit := modal_limit self |} in
  if String.eqb event_type "TIMER" then
    (check_done (count self) (modal_limit self) prefs is_client_connected, self)
  else (PASS_THROUGH, [], self).

(** [DebuggerCheck.execute(self, context)]. *)
Definition execute (self : DebuggerCheck) (prefs : Preferences) (wm : WindowManager)
  : Status * DebuggerCheck * WindowManager :=
  let '(t, wm) := event_timer_add wm in
  (RUNNING_MODAL,
   {| timer := Some t; count := 0; modal_limit := timeout prefs * 60 |},
   wm).

(** [DebuggerCheck.cancel(self, context)]. *)
Definition cancel (self : DebuggerCheck) (wm : WindowManager)
  : list Line * WindowManager :=
  ([LineCancelled], event_timer_remove wm (timer self)).

(** *** The poller as the state machine of the specification

    The host keeps calling [modal] for as long as it answers
    [PASS_THROUGH] or [RUNNING_MODAL], and drops the operator once it
    answers [FINISHED] or [CANCELLED]. *)
Inductive PollerState :=
| Waiting (op : DebuggerCheck)
| TimedOut
| Attached.

(** One timer tick delivered by the host. *)
Definition tick (prefs : Preferences) (is_client_connected : bool)
    (s : PollerState) : PollerState :=
  match s with
  | Waiting op =>
      match modal op "TIMER" prefs is_client_connected with
      | (CANCELLED, _, _) => TimedOut
      | (FINISHED, _, _) => Attached
      | (_, _, op') => Waiting op'
      end
  | TimedOut => TimedOut
  | Attached => Attached
  end.

(** The operator [op] after [n] more calls of [modal]. *)
Definition counted (op : DebuggerCheck) (n : Z) : DebuggerCheck :=
  {| timer := timer op; count := count op + n; modal_limit := modal_limit op |}.

(** A sequence of ticks; [flags] gives the connection flag at each. *)
Definition run (prefs : Preferences) (flags : list bool) (s : PollerState)
  : PollerState :=
  fold_left (fun s flag => tick prefs flag s) flags s.

End Debugger.

(** ** [dependency_manager.py] *)

Module DependencyManager.
Import Bpy.

(** The dataclass [Dependency], after [__post_init__] has run. *)
Record Dependency := {
  module : string;
  package : string;
  alias : string;
  display_name : string;
  version : option string;
}.

(** [Dependency(module, package, alias, display_name, version)]: the
    generated [__init__] followed by [__post_init__]. *)
Definition new_Dependency (module : string)
    (package alias display_name version : option string) : Dependency :=
  {| module := module;
     package := or_else package module;
     alias := or_else alias module;
     display_name := or_else display_name module;
     version := version |}.

(** A module spec as the finders report it, and a module object: the
    number tells one object from another, [module_spec] is its
    [__spec__] attribute ([None] when it is not set). *)
Record ModuleSpec := { spec_name : string; origin : string }.
Record PyModule := { object_id : nat; module_spec : option ModuleSpec }.

(** One call of [subprocess.run]: the argument list and the [env]
    argument ([None] when the call passes none). *)
Record Subprocess := {
  argv : list string;
  env : option (gmap string string);
}.

(** The lines the module prints. *)
Inductive Line :=
| LineImporting (module_name : string)
| LineAlreadyLoaded (alias_name : string)
| LineCannotFind (alias_name : string)
| LineSpec (module_name : string)
| LineImported (alias_name : string)
| LineCouldNotImport (dep : Dependency)
| LineExn (e : exn).

(** Everything the module reads and changes while it runs. *)
Record State := {
  dependencies : option (list Dependency);   (* the module-level tuple *)
  sys_modules : gmap string PyModule;        (* sys.modules *)
  next_object : nat;                         (* objects created so far *)
  executed : list ModuleSpec;                (* calls of exec_module *)
  spawned : list Subprocess;                 (* calls of subprocess.run *)
  console : list Line;                       (* what print wrote *)
  reports : list (string * exn);             (* what self.report showed *)
  registered : list string;                  (* classes registered with bpy *)
}.

(** What running Python code of other modules does to the import state:
    [sys.modules] afterwards, the code of further modules it ran, in
    order, and the exception it ended with, if any. *)
Record ImportEffect := {
  modules_after : gmap string PyModule;
  also_executed : list ModuleSpec;
  raised : option exn;
}.

(** What the interpreter and the machine around it answer.  The import
    machinery is asked with [sys.modules] and the children run so far. *)
Record Interpreter := {
  sys_executable : string;
  os_environ : gmap string string;
  (* the search of [sys.meta_path] for a module that is not loaded *)
  finder : list Subprocess -> string -> option ModuleSpec;
  (* [__import__(parent, fromlist=["__path__"])] and the read of its [__path__] *)
  import_parent : gmap string PyModule -> list Subprocess -> string -> ImportEffect;
  (* what makes [importlib.util.module_from_spec] raise *)
  create_raises : ModuleSpec -> option exn;
  (* what the code of a module does when the loader runs it *)
  module_code : gmap string PyModule -> list Subprocess -> ModuleSpec -> PyModule
                -> ImportEffect;
  (* the [OSError] of a child that cannot be started *)
  cannot_start : State -> Subprocess -> option string;
  (* the exit status of a child that was started *)
  returncode : State -> Subprocess -> Z;
  dependant_classes : list string;
}.

(** *** Computations: a state and the possibility of an exception *)

Definition M (A : Type) : Type := State -> result A * State.

#[export] Instance M_ret : MRet M := fun A a st => (Ok a, st).
#[export] Instance M_bind : MBind M := fun A B f m st =>
  match m st with
  | (Ok a, st') => f a st'
  | (Raise e, st') => (Raise e, st')
  end.

Definition get : M State := fun st => (Ok st, st).
Definition raise {A} (e : exn) : M A := fun st => (Raise e, st).

(** [try: body  except <handles> as e: handler(e)]. *)
Definition try_except {A} (body : M A) (handles : exn -> bool)
    (handler : exn -> M A) : M A := fun st =>
  match body st with
  | (Raise e, st') => if handles e then handler e st' else (Raise e, st')
  | (Ok a, st') => (Ok a, st')
  end.

Definition is_CalledProcessError (e : exn) : bool :=
  match e with CalledProcessError _ _ => true | _ => false end.
(** [ModuleNotFoundError] is a subclass of [ImportError]. *)
Definition is_ImportError (e : exn) : bool :=
  match e with ImportError _ | ModuleNotFoundError _ => true | _ => false end.
Definition is_ValueError (e : exn) : bool :=
  match e with ValueError _ => true | _ => false end.

Definition print (l : Line) : M unit := fun st =>
  (Ok tt,
   {| dependencies := dependencies st; sys_modules := sys_modules st;
      next_object := next_object st; executed := executed st;
      spawned := spawned st; console := console st ++ [l];
      reports := reports st; registered := registered st |}).

Definition report (level : string) (err : exn) : M unit := fun st =>
  (Ok tt,
   {| dependencies := dependencies st; sys_modules := sys_modules st;
      next_object := next_object st; executed := executed st;
      spawned := spawned st; console := console st;
      reports := reports st ++ [(level, err)]; registered := registered st |}).

(** [importlib.util.module_from_spec(spec)]: a new module object, or
    the exception of the loader that cannot make one. *)
Definition module_from_spec (i : Interpreter) (spec : ModuleSpec) : M PyModule :=
  fun st =>
  match create_raises i spec with
  | Some e => (Raise e, st)
  | None =>
      (Ok {| object_id := next_object st; module_spec := Some spec |},
       {| dependencies := dependencies st; sys_modules := sys_modules st;
          next_object := S (next_object st); executed := executed st;
          spawned := spawned st; console := console st;
          reports := reports st; registered := registered st |})
  end.

(** [sys.modules[name] = m]. *)
Definition set_sys_module (name : string) (m : PyModule) : M unit := fun st =>
  (Ok tt,
   {| dependencies := dependencies st; sys_modules := <[name := m]> (sys_modules st);
      next_object := next_object st; executed := executed st;
      spawned := spawned st; console := console st;
      reports := reports st; registered := registered st |}).

(** The state after Python code with the effect [eff] ran. *)
Definition apply_effect (eff : ImportEffect) (st : State) : State :=
  {| dependencies := dependencies st; sys_modules := modules_after eff;
     next_object := next_object st;
     executed := executed st ++ also_executed eff;
     spawned := spawned st; console := console st;
     reports := reports st; registered := registered st |}.

(** The outcome of Python code with the effect [eff]. *)
Definition run_effect (eff : ImportEffect) : M unit := fun st =>
  match raised eff with
  | Some e => (Raise e, apply_effect eff st)
  | None => (Ok tt, apply_effect eff st)
  end.

(** [spec.loader.exec_module(module)]: the code of the module runs; it
    may change [sys.modules], run the code of other modules and raise. *)
Definition exec_module (i : Interpreter) (spec : ModuleSpec) (m : PyModule) : M unit :=
  fun st =>
  let st' :=
    {| dependencies := dependencies st; sys_modules := sys_modules st;
       next_object := next_object st; executed := executed st ++ [spec];
       spawned := spawned st; console := console st;
       reports := reports st; registered := registered st |} in
  run_effect (module_code i (sys_modules st) (spawned st) spec m) st'.

(** The part of a dotted name before its last dot, empty when the name
    has no dot: [name.rpartition(".")[0]]. *)
Fixpoint contains_dot (s : string) : bool :=
  match s with
  | EmptyString => false
  | String c t => Ascii.eqb c "."%char || contains_dot t
  end.

Fixpoint parent_of (s : string) : string :=
  match s with
  | EmptyString => EmptyString
  | String c t => if contains_dot t then String c (parent_of t) else EmptyString
  end.

Definition starts_with_dot (s : string) : bool :=
  match s with
  | String c _ => Ascii.eqb c "."%char
  | EmptyString => false
  end.

(** A module name without a dot, as [debugpy] or [cv2]. *)
Definition top_level (name : string) : bool := negb (contains_dot name).

(** [importlib.util.find_spec(name)], as the standard library defines
    it.  A relative name needs a package and raises [ImportError]
    without one.  For a loaded module the answer is its [__spec__], and
    [ValueError] when that is not set.  For a dotted name that is not
    loaded the parent package is imported first, which runs its code and
    raises [ModuleNotFoundError] when there is no such package; then, as
    for a name without a dot, the finders are searched.  The finders
    themselves run no module code, as those of the standard library do,
    and every entry of [sys.modules] is a module. *)
Definition find_spec (i : Interpreter) (name : string) : M (option ModuleSpec) :=
  fun st =>
  if starts_with_dot name then (Raise (ImportError name), st)
  else
    match sys_modules st !! name with
    | Some m =>
        match module_spec m with
        | Some spec => (Ok (Some spec), st)
        | None => (Raise (ValueError (name +:+ ".__spec__ is None")), st)
        end
    | None =>
        if truthy (parent_of name) then
          match run_effect (import_parent i (sys_modules st) (spawned st)
                              (parent_of name)) st with
          | (Raise e, st') => (Raise e, st')
          | (Ok _, st') => (Ok (finder i (spawned st') name), st')
          end
        else (Ok (finder i (spawned st) name), st)
    end.

(** [subprocess.run(argv, check=True, env=env)]: [OSError] when the
    child cannot be started, [CalledProcessError] when it exits with a
    status other than 0. *)
Definition subprocess_run (i : Interpreter) (argv : list string)
    (env : option (gmap string string)) : M unit := fun st =>
  let child := {| argv := argv; env := env |} in
  let st' :=
    {| dependencies := dependencies st; sys_modules := sys_modules st;
       next_object := next_object st; executed := executed st;
       spawned := spawned st ++ [child]; console := console st;
       reports := reports st; registered := registered st |} in
  match cannot_start i st child with
  | Some msg => (Raise (OSError msg), st')
  | None =>
      let rc := returncode i st child in
      if rc =? 0 then (Ok tt, st') else (Raise (CalledProcessError rc argv), st')
  end.

Definition set_registered (classes : list string) : M unit := fun st =>
  (Ok tt,
   {| dependencies := dependencies st; sys_modules := sys_modules st;
      next_object := next_object st; executed := executed st;
      spawned := spawned st; console := console st;
      reports := reports st; registered := classes |}).

(** *** The functions of the module *)

(** [import_module(module_name, alias_name)]. *)
Definition import_module (i : Interpreter) (module_name : string)
    (alias_name : option string) : M (option PyModule) :=
  let alias_name := or_else alias_name module_name in
  print (LineImporting module_name) ;;
  st ← get;
  match sys_modules st !! alias_name with
  | Some _ =>
      print (LineAlreadyLoaded alias_name) ;;
      mret None
  | None =>
      spec ← find_spec i module_name;
      match spec with
      | None =>
          print (LineCannotFind alias_name) ;;
          mret None
      | Some spec =>
          print (LineSpec module_name) ;;
          module ← module_from_spec i spec;
          set_sys_module alias_name module ;;
          exec_module i spec module ;;
          print (LineImported alias_name) ;;
          mret (Some module)
      end
  end.

(** [install_module(package_name, package_requirements)]. *)
Definition install_module (i : Interpreter) (package_name : option string)
    (package_requirements : option string) : M unit :=
  match package_name with
  | None => raise (ValueError "Package name not especified")
  | Some package_name =>
      let environ_copy := <["PYTHONNOUSERSITE" := "1"]> (os_environ i) in
      let ver := or_else package_requirements EmptyString in
      let requirement := package_name +:+ ver in
      try_except
        (subprocess_run i
           [sys_executable i; "-m"; "pip"; "install"; "--upgrade"; requirement]
           (Some environ_copy))
        is_CalledProcessError
        (fun e => print (LineExn e))
  end.

(** [uninstall_module(package_name)]. *)
Definition uninstall_module (i : Interpreter) (package_name : option string)
  : M unit :=
  match package_name with
  | None => raise (ValueError "Package name not especified")
  | Some package_name =>
      let environ_copy := <["PYTHONNOUSERSITE" := "1"]> (os_environ i) in
      try_except
        (subprocess_run i
           [sys_executable i; "-m"; "pip"; "uninstall"; "--yes"; package_name]
           (Some environ_copy))
        is_CalledProcessError
        (fun e => print (LineExn e))
  end.

(** [check_dependency_state(dep)]. *)
Definition check_dependency_state (i : Interpreter) (dep : option Dependency)
  : M bool :=
  match dep with
  | None => mret false
  | Some dep =>
      st ← get;
      match sys_modules st !! module dep with
      | Some _ => mret true
      | None =>
          spec ← find_spec i (module dep);
          match spec with
          | Some _ => mret true
          | None => mret false
          end
      end
  end.

(** [all(check_dependency_state(dep) for dep in deps)]. *)
Fixpoint all_dependency_states (i : Interpreter) (deps : list Dependency)
  : M bool :=
  match deps with
  | [] => mret true
  | dep :: rest =>
      ok ← check_dependency_state i (Some dep);
      if (ok : bool) then all_dependency_states i rest else mret false
  end.

(** [check_all_dependencies()]. *)
Definition check_all_dependencies (i : Interpreter) : M bool :=
  st ← get;
  match dependencies st with
  | None => mret false
  | Some deps => all_dependency_states i deps
  end.

(** The loop of [update_dependencies_states]. *)
Fixpoint each_dependency_state (i : Interpreter) (deps : list Dependency)
  : M unit :=
  match deps with
  | [] => mret tt
  | dep :: rest =>
      check_dependency_state i (Some dep) ;;
      each_dependency_state i rest
  end.

(** [update_dependencies_states()]. *)
Definition update_dependencies_states (i : Interpreter) : M unit :=
  st ← get;
  match dependencies st with
  | None => mret tt
  | Some deps => each_dependency_state i deps
  end.

(** The loop of [import_all_dependencies]. *)
Fixpoint import_each (i : Interpreter) (deps : list Dependency) : M unit :=
  match deps with
  | [] => mret tt
  | dep :: rest =>
      try_except
        (import_module i (module dep) (Some (alias dep)) ;; mret tt)
        is_ImportError
        (fun _ => print (LineCouldNotImport dep)) ;;
      import_each i rest
  end.

(** [import_all_dependencies()]. *)
Definition import_all_dependencies (i : Interpreter) : M unit :=
  st ← get;
  match dependencies st with
  | None => mret tt
  | Some deps => import_each i deps
  end.

(** The loop of [register_dependant_classes]. *)
Fixpoint register_each (classes : list string) : M unit :=
  match classes with
  | [] => mret tt
  | cls :: rest =>
      st ← get;
      (if bool_decide (cls ∈ registered st) then mret tt
       else set_registered (registered st ++ [cls])) ;;
      register_each rest
  end.

(** [register_dependant_classes()]. *)
Definition register_dependant_classes (i : Interpreter) : M unit :=
  ok ← check_all_dependencies i;
  if negb (ok : bool) then mret tt else register_each (dependant_classes i).

(** The loop of [unregister_dependant_classes]. *)
Fixpoint unregister_each (classes : list string) : M unit :=
  match classes with
  | [] => mret tt
  | cls :: rest =>
      st ← get;
      (if bool_decide (cls ∈ registered st)
       then set_registered (List.filter (fun c => negb (String.eqb c cls)) (registered st))
       else mret tt) ;;
      unregister_each rest
  end.

(** [unregister_dependant_classes()]. *)
Definition unregister_dependant_classes (i : Interpreter) : M unit :=
  unregister_each (dependant_classes i).

(** The exceptions the two operators catch. *)
Definition is_install_error (e : exn) : bool :=
  is_CalledProcessError e || is_ImportError e.

(** [dep_list] of the two operators: all dependencies, or those whose
    package is [package_name]. *)
Definition select_dependencies (package_name : string) (deps : list Dependency)
  : list Dependency :=
  if String.eqb package_name EmptyString then deps
  else List.filter (fun dep => String.eqb (package dep) package_name) deps.

(** The loop of the install operator; [Some s] when the loop body
    returned [s]. *)
Fixpoint install_each (i : Interpreter) (dep_list : list Dependency)
  : M (option Status) :=
  match dep_list with
  | [] => mret None
  | dep :: rest =>
      returned ← try_except
        (install_module i (Some (package dep)) (version dep) ;; mret None)
        is_install_error
        (fun err => report "ERROR" err ;; mret (Some CANCELLED));
      match returned with
      | Some s => mret (Some s)
      | None => install_each i rest
      end
  end.

(** [DEPENDENCY_OT_install_dependencies.execute]. *)
Definition DEPENDENCY_OT_install_dependencies_execute (i : Interpreter)
    (package_name : string) : M Status :=
  st ← get;
  match dependencies st with
  | None => mret CANCELLED
  | Some deps =>
      returned ← install_each i (select_dependencies package_name deps);
      match returned with
      | Some s => mret s
      | None =>
          register_dependant_classes i ;;
          mret FINISHED
      end
  end.

(** The loop of the uninstall operator. *)
Fixpoint uninstall_each (i : Interpreter) (dep_list : list Dependency)
  : M (option Status) :=
  match dep_list with
  | [] => mret None
  | dep :: rest =>
      returned ← try_except
        (uninstall_module i (Some (package dep)) ;; mret None)
        is_install_error
        (fun err => report "ERROR" err ;; mret (Some CANCELLED));
      match returned with
      | Some s => mret (Some s)
      | None => uninstall_each i rest
      end
  end.

(** [DEPENDENCY_OT_uninstall_dependencies.execute]. *)
Definition DEPENDENCY_OT_uninstall_dependencies_execute (i : Interpreter)
    (package_name : string) : M Status :=
  st ← get;
  match dependencies st with
  | None => mret CANCELLED
  | Some deps =>
      returned ← uninstall_each i (select_dependencies package_name deps);
      match returned with
      | Some s => mret s
      | None =>
          unregister_dependant_classes i ;;
          mret FINISHED
      end
  end.

End DependencyManager.

(** ** The resolver's strategies as the specification words them

    Each strategy has a list of places where it expects the package, in
    the order in which it looks at them; a strategy finds the first place
    of its list that contains the package directory. *)

Module Strategies.
Import Resolver.

(** The directory [dir] contains the package. *)
Definition contains_package (h : Host) (dir : string) : bool :=
  path_exists h (join h dir "debugpy").

Definition first_match (h : Host) (dirs : list string) : option string :=
  List.find (contains_package h) dirs.

(** Strategy 1: the platform library path, when there is one. *)
Definition platlib_places (h : Host) : list string :=
  match get_platlib h with
  | Some p => if truthy p then [normpath h p] else []
  | None => []
  end.

(** Strategy 2: every entry of the module search path, then its
    [site-packages], then its [lib/site-packages]. *)
Definition entry_places (h : Host) (entry : string) : list string :=
  let p := normpath h entry in
  [p; join h p "site-packages"; join h (join h p "lib") "site-packages"].

Definition sys_path_places (h : Host) : list string :=
  flat_map (entry_places h) (sys_path h).

(** Strategy 3: the values of the field [Location: ] in the text the
    package manager printed. *)
Definition pip_places (h : Host) (text : string) : list string :=
  map (fun value => normpath h (rstrip value))
      (omap (re_search_rest "Location: ") (splitlines text)).

(** Strategy 4: [lib/site-packages] next to each path a lookup command
    printed. *)
Definition python_places (h : Host) (text : string) : list string :=
  map (fun line => join h (join h (dirname h (normpath h line)) "lib") "site-packages")
      (splitlines text).

(** A strategy that runs a command: it finds a place, finds none, or
    stops the whole search with an exception. *)
Definition lookup (h : Host) (places : string -> list string) (c : Command)
  : result (option string) :=
  match popen h c with
  | PopenRaises _ => Ok None
  | PopenStdout NotUtf8 => Raise UnicodeDecodeError
  | PopenStdout (Utf8 text) => Ok (first_match h (places text))
  end.

(** The events of running one command to its end. *)
Definition events_of (h : Host) (c : Command) : list Event :=
  match popen h c with
  | PopenRaises e => [Spawned c; Printed e]
  | PopenStdout _ => [Spawned c]
  end.

(** No strategy finds the package, and none raises. *)
Definition every_strategy_misses (h : Host) : Prop :=
  first_match h (platlib_places h) = None
  /\ first_match h (sys_path_places h) = None
  /\ lookup h (pip_places h) pip_show = Ok None
  /\ Forall (fun c => lookup h (python_places h) c = Ok None) checks.

End Strategies.

(** ** The package-manager invocations as the specification words them *)

Module Invocations.
Import DependencyManager.

(** [[pythonExecutable, "-m", "pip", "install", "--upgrade", spec]]
    where [spec] is the package name followed by the constraint. *)
Definition install_argv (i : Interpreter) (package_name : string)
    (constraint : option string) : list string :=
  [sys_executable i; "-m"; "pip"; "install"; "--upgrade";
   package_name +:+ or_else constraint EmptyString].

(** [[pythonExecutable, "-m", "pip", "uninstall", "--yes", name]]. *)
Definition uninstall_argv (i : Interpreter) (package_name : string) : list string :=
  [sys_executable i; "-m"; "pip"; "uninstall"; "--yes"; package_name].

(** The environment of a child: the interpreter's own, with the
    variable that disables the user site-packages set. *)
Definition child_environ (i : Interpreter) : gmap string string :=
  <["PYTHONNOUSERSITE" := "1"]> (os_environ i).

(** Two states that differ at most in what was spawned and printed. *)
Definition same_but_logs (st st' : State) : Prop :=
  dependencies st' = dependencies st
  /\ sys_modules st' = sys_modules st
  /\ next_object st' = next_object st
  /\ executed st' = executed st
  /\ reports st' = reports st
  /\ registered st' = registered st.

(** Two states that differ at most in the import state: [sys.modules]
    and the code that was executed. *)
Definition import_frame (st st' : State) : Prop :=
  dependencies st' = dependencies st
  /\ next_object st' = next_object st
  /\ spawned st' = spawned st
  /\ console st' = console st
  /\ reports st' = reports st
  /\ registered st' = registered st.


(** A dependency counts as installed when its module is loaded or the
    finders report a spec for it. *)
Definition installed (i : Interpreter) (st : State) (dep : Dependency) : Prop :=
  is_Some (sys_modules st !! module dep)
  \/ is_Some (finder i (spawned st) (module dep)).

End Invocations.

(** ** Concrete hosts, used to evaluate the definitions *)

Module Samples.
Import Bpy Resolver Debugger DependencyManager.

Definition nl : string := String (ascii_of_nat 10) EmptyString.

(** A POSIX host with the given files and child processes. *)
Definition posix_host (platlib : option string) (search : list string)
    (files : list string) (children : Command -> PopenOutcome) : Host :=
  {| get_platlib := platlib;
     sys_path := search;
     path_exists := fun p => existsb (String.eqb p) files;
     normpath := PosixPath.normpath;
     join := PosixPath.join;
     dirname := PosixPath.dirname;
     popen := children |}.

Definition no_children : Command -> PopenOutcome :=
  fun _ => PopenRaises (OSError "no shell").

Definition silent_children : Command -> PopenOutcome :=
  fun _ => PopenStdout (Utf8 EmptyString).

(** The package sits in the platform library path. *)
Definition platlib_host : Host :=
  posix_host (Some "/opt/blender/4.2/python/lib/python3.11/site-packages/")
    ["/opt/blender/4.2/scripts/modules"]
    ["/opt/blender/4.2/python/lib/python3.11/site-packages/debugpy";
     "/opt/blender/4.2/scripts/modules/debugpy"]
    silent_children.

(** The package sits under [site-packages] of the second search entry. *)
Definition sys_path_host : Host :=
  posix_host (Some "/opt/blender/4.2/python/lib/python3.11/site-packages")
    ["/opt/blender/4.2/scripts/modules"; "/home/ann/venv"]
    ["/home/ann/venv/site-packages/debugpy";
     "/home/ann/venv/lib/site-packages/debugpy"]
    silent_children.

Definition pip_show_text : string :=
  "Name: debugpy" +:+ nl +:+ "Version: 1.8.0" +:+ nl
  +:+ "Location: /home/ann/.local/lib/python3.11/site-packages  " +:+ nl
  +:+ "Requires: " +:+ nl.

(** Only the package manager knows where the package is. *)
Definition pip_host : Host :=
  posix_host None ["/opt/blender/4.2/scripts/modules"]
    ["/home/ann/.local/lib/python3.11/site-packages/debugpy";
     "/usr/bin/lib/site-packages/debugpy"]
    (fun c => match c with
              | CommandLine _ => PopenStdout (Utf8 pip_show_text)
              | CommandArgs _ => PopenStdout (Utf8 ("/usr/bin/python" +:+ nl))
              end).

(** The package sits next to the system interpreter; [where] cannot be
    started, [whereis] prints nothing useful, [which] prints the path. *)
Definition system_host : Host :=
  posix_host None ["/opt/blender/4.2/scripts/modules"]
    ["/usr/bin/lib/site-packages/debugpy"]
    (fun c => match c with
              | CommandLine _ => PopenStdout (Utf8 EmptyString)
              | CommandArgs ["where"; _] => PopenRaises (OSError "where")
              | CommandArgs ["whereis"; _] => PopenStdout (Utf8 ("python:" +:+ nl))
              | CommandArgs _ => PopenStdout (Utf8 ("/usr/bin/python" +:+ nl))
              end).

(** Nothing is installed and no command can be started. *)
Definition bare_host : Host :=
  posix_host (Some "/opt/blender/4.2/python/lib/python3.11/site-packages")
    ["/opt/blender/4.2/scripts/modules"] [] no_children.

(** Nothing is installed, and the package manager prints bytes that
    are not UTF-8. *)
Definition undecodable_host : Host :=
  posix_host None [] []
    (fun c => match c with
              | CommandLine _ => PopenStdout NotUtf8
              | CommandArgs _ => PopenStdout (Utf8 EmptyString)
              end).

(** The package sits next to the system interpreter, whose path every
    lookup command prints, and the package manager prints bytes that
    are not UTF-8. *)
Definition hidden_host : Host :=
  posix_host None ["/opt/blender/4.2/scripts/modules"]
    ["/usr/bin/lib/site-packages/debugpy"]
    (fun c => match c with
              | CommandLine _ => PopenStdout NotUtf8
              | CommandArgs _ => PopenStdout (Utf8 ("/usr/bin/python" +:+ nl))
              end).

(** A search entry whose name is the text of the sentinel. *)
Definition clash_host : Host :=
  posix_host None ["debugpy not found"] ["debugpy not found/debugpy"]
    silent_children.

(** The preferences as the add-on ships them. *)
Definition default_preferences : Preferences :=
  {| path := NOT_FOUND_MESSAGE; timeout := 20; port := 5678 |}.

(** A poller whose limit is five ticks. *)
Definition five_ticks : DebuggerCheck :=
  {| timer := Some 0%nat; count := 0; modal_limit := 5 |}.

(** An interpreter that can find [debugpy] and nothing else, and whose
    children all exit with status [rc]. *)
Definition debugpy_spec : ModuleSpec :=
  {| spec_name := "debugpy";
     origin := "/opt/blender/4.2/python/lib/python3.11/site-packages/debugpy/__init__.py" |}.

(** Python code that changes nothing and raises nothing. *)
Definition no_effect (modules : gmap string PyModule) : ImportEffect :=
  {| modules_after := modules; also_executed := []; raised := None |}.

(** There is no package [parent]. *)
Definition no_package (modules : gmap string PyModule) (parent : string)
  : ImportEffect :=
  {| modules_after := modules; also_executed := [];
     raised := Some (ModuleNotFoundError parent) |}.

Definition interpreter (rc : Z) : Interpreter :=
  {| sys_executable := "/opt/blender/4.2/python/bin/python3.11";
     os_environ := {[ "HOME" := "/home/ann" ]};
     finder := fun _ name =>
       if String.eqb name "debugpy" then Some debugpy_spec else None;
     import_parent := fun modules _ parent => no_package modules parent;
     create_raises := fun _ => None;
     module_code := fun modules _ _ _ => no_effect modules;
     cannot_start := fun _ _ => None;
     returncode := fun _ _ => rc;
     dependant_classes := ["DebuggerCheck"; "DebugServerStart"] |}.

(** The state right after the module was loaded. *)
Definition fresh_state (deps : option (list Dependency)) : State :=
  {| dependencies := deps; sys_modules := ∅; next_object := 0;
     executed := []; spawned := []; console := []; reports := [];
     registered := [] |}.

(** The dependency the add-on declares, and one with a pinned version. *)
Definition debugpy_dependency : Dependency :=
  new_Dependency "debugpy" None None None None.

Definition pinned_dependency : Dependency :=
  new_Dependency "cv2" (Some "opencv-contrib-python") (Some "cv") (Some "OpenCV")
    (Some "==1.2.3").

(** A dependency with a dotted module name, and an interpreter on
    which its parent package [google] can be imported. *)
Definition protobuf_dependency : Dependency :=
  new_Dependency "google.protobuf" (Some "protobuf") None None None.




(** A state in which [debugpy] is already loaded. *)
Definition loaded_module : PyModule :=
  {| object_id := 7; module_spec := Some debugpy_spec |}.


End Samples.

(** ** [__init__.py]: the two operators of the add-on *)

Module Operators.
Import Bpy Resolver Debugger.

(** What the operators show with [self.report]. *)
Inductive Notice :=
| NoticeError (e : exn)            (* the text of a caught exception *)
| NoticeNotDetected                (* debugpy could not be detected *)
| NoticeMissing (place : string)   (* no debugpy at [place] *)
| NoticeAwaiting.                  (* awaiting a connection *)

(** [DebuggerPathUpdate.execute]: the status or the exception, the
    preferences afterwards, what was reported and the events of the
    resolver. *)
Definition DebuggerPathUpdate_execute (h : Host) (prefs : Preferences)
  : result Status * Preferences * list (string * Notice) * list Event :=
  match check_for_debugpy h with
  | (Ok found, evs) =>
      (Ok FINISHED,
       {| path := found; timeout := timeout prefs; port := port prefs |}, [], evs)
  | (Raise e, evs) =>
      match e with
      | CalledProcessError _ _ => (Ok CANCELLED, prefs, [("ERROR", NoticeError e)], evs)
      | _ => (Raise e, prefs, [], evs)
      end
  end.

(** The surroundings of [DebugServerStart.execute]. *)
Record Server := {
  disk : Host;                                   (* os.path.exists and os.path.join *)
  abspath : string -> string;                    (* os.path.abspath *)
  import_raises : list string -> option exn;     (* [import debugpy] with this sys.path *)
  listen_raises : list (string * Z) -> string * Z -> option exn;
                                                 (* [debugpy.listen] after these listens *)
  wait_raises : list (string * Z) -> option exn; (* [debugpy.wait_for_client] while
                                                    listening on these addresses *)
}.

(** What [DebugServerStart.execute] reads and changes. *)
Record Session := {
  search_path : list string;            (* sys.path *)
  debugpy_bound : bool;                 (* the global name debugpy *)
  listening : list (string * Z);        (* addresses debugpy listens on *)
  notices : list (string * Notice);     (* what self.report showed *)
  already_running : nat;                (* times "Server already running." was printed *)
  waits : nat;                          (* calls of debugpy.wait_for_client *)
  window_manager : WindowManager;
  pollers : list DebuggerCheck;         (* modal operators the host runs *)
}.

Definition notify (level : string) (n : Notice) (ss : Session) : Session :=
  {| search_path := search_path ss; debugpy_bound := debugpy_bound ss;
     listening := listening ss; notices := notices ss ++ [(level, n)];
     already_running := already_running ss; waits := waits ss;
     window_manager := window_manager ss; pollers := pollers ss |}.

(** [if debugpy_path not in sys.path: sys.path.append(debugpy_path)]. *)
Definition ensure_on_path (debugpy_path : string) (ss : Session) : Session :=
  if existsb (String.eqb debugpy_path) (search_path ss) then ss
  else
    {| search_path := search_path ss ++ [debugpy_path];
       debugpy_bound := debugpy_bound ss;
       listening := listening ss; notices := notices ss;
       already_running := already_running ss; waits := waits ss;
       window_manager := window_manager ss; pollers := pollers ss |}.

(** [try: debugpy.listen(("localhost", port))  except: print(...)]. *)
Definition try_listen (s : Server) (debugpy_port : Z) (ss : Session) : Session :=
  match listen_raises s (listening ss) ("localhost", debugpy_port) with
  | Some _ =>
      {| search_path := search_path ss; debugpy_bound := debugpy_bound ss;
         listening := listening ss; notices := notices ss;
         already_running := S (already_running ss); waits := waits ss;
         window_manager := window_manager ss; pollers := pollers ss |}
  | None =>
      {| search_path := search_path ss; debugpy_bound := debugpy_bound ss;
         listening := listening ss ++ [("localhost", debugpy_port)];
         notices := notices ss;
         already_running := already_running ss; waits := waits ss;
         window_manager := window_manager ss; pollers := pollers ss |}
  end.

(** [if self.waitForClient: self.report(...); debugpy.wait_for_client()]:
    the exception of the wait, if it raises, and the session. *)
Definition maybe_wait (s : Server) (waitForClient : bool) (ss : Session)
  : option exn * Session :=
  if waitForClient then
    let ss := notify "INFO" NoticeAwaiting ss in
    match wait_raises s (listening ss) with
    | Some e => (Some e, ss)
    | None =>
        (None,
         {| search_path := search_path ss; debugpy_bound := debugpy_bound ss;
            listening := listening ss; notices := notices ss;
            already_running := already_running ss; waits := S (waits ss);
            window_manager := window_manager ss; pollers := pollers ss |})
    end
  else (None, ss).

(** [bpy.ops.debug.check_for_debugger()]: the host makes a new
    [DebuggerCheck] and runs its [execute]. *)
Definition check_for_debugger (prefs : Preferences) (ss : Session) : Session :=
  let '(_, op, wm) := execute DebuggerCheck_new prefs (window_manager ss) in
  {| search_path := search_path ss; debugpy_bound := debugpy_bound ss;
     listening := listening ss; notices := notices ss;
     already_running := already_running ss; waits := waits ss;
     window_manager := wm; pollers := pollers ss ++ [op] |}.

(** [DebugServerStart.execute]. *)
Definition DebugServerStart_execute (s : Server) (waitForClient : bool)
    (prefs : Preferences) (ss : Session) : result Status * Session :=
  let debugpy_path := path prefs in
  let debugpy_port := port prefs in
  if String.eqb debugpy_path NOT_FOUND_MESSAGE
  then (Ok CANCELLED, notify "ERROR" NoticeNotDetected ss)
  else if negb (path_exists (disk s)
                  (abspath s (join (disk s) debugpy_path "debugpy")))
  then (Ok CANCELLED,
        notify "ERROR" (NoticeMissing (join (disk s) debugpy_path "debugpy")) ss)
  else
    let ss := ensure_on_path debugpy_path ss in
    match import_raises s (search_path ss) with
    | Some e => (Raise e, ss)
    | None =>
        let ss :=
          {| search_path := search_path ss; debugpy_bound := true;
             listening := listening ss; notices := notices ss;
             already_running := already_running ss; waits := waits ss;
             window_manager := window_manager ss; pollers := pollers ss |} in
        let ss := try_listen s debugpy_port ss in
        match maybe_wait s waitForClient ss with
        | (Some e, ss) => (Raise e, ss)
        | (None, ss) =>
            let ss := check_for_debugger prefs ss in
            (Ok FINISHED, ss)
        end
    end.

End Operators.

(** ** [dependency_manager.py]: making sure the package manager exists *)

Module Bootstrap.
Import DependencyManager.

(** The interpreter with another [os.environ]. *)
Definition with_environ (environ : gmap string string) (i : Interpreter) : Interpreter :=
  {| sys_executable := sys_executable i;
     os_environ := environ;
     finder := finder i;
     import_parent := import_parent i;
     create_raises := create_raises i;
     module_code := module_code i;
     cannot_start := cannot_start i;
     returncode := returncode i;
     dependant_classes := dependant_classes i |}.

(** [install_pip()].  [bootstrap] is what [import ensurepip] and
    [ensurepip.bootstrap()] do: the exception they end with, if any, and
    [os.environ] as they leave it.  The interpreter returned is the one
    the rest of the run sees. *)
Definition install_pip
    (bootstrap : gmap string string -> option exn * gmap string string)
    (i : Interpreter) : State -> result unit * Interpreter * State := fun st =>
  match subprocess_run i [sys_executable i; "-m"; "pip"; "--version"] None st with
  | (Ok _, st') => (Ok tt, i, st')
  | (Raise e, st') =>
      if is_CalledProcessError e then
        match bootstrap (os_environ i) with
        | (Some e', environ) => (Raise e', with_environ environ i, st')
        | (None, environ) =>
            (Ok tt, with_environ (delete "PIP_REQ_TRACKER" environ) i, st')
        end
      else (Raise e, i, st')
  end.

End Bootstrap.

(** ** [dependency_manager.py]: the panel *)

Module Panel.
Import DependencyManager.

(** The two operators a button can stand for. *)
Inductive OperatorId := InstallOperator | UninstallOperator.

(** What the panel puts into a row. *)
Inductive Widget :=
| Label (text : string)
| Button (operator : OperatorId) (text icon package_name : string).

(** What the panel puts into its box: a label, or a row of widgets. *)
Inductive BoxItem :=
| BoxLabel (text : string)
| Row (widgets : list Widget).

(** The module-level settings the panel reads besides the dependency
    list, and the installed-version query of [importlib.metadata]. *)
Record Settings := {
  main_globals_assigned : bool;                 (* main_globals is not None *)
  manage_individually : bool;
  metadata_version : string -> option string;   (* None: PackageNotFoundError *)
}.

(** Drawing: what a call returns or raises, what it has put into the
    box by then, and the state. *)
Definition Draw (A : Type) : Type := State -> result A * list BoxItem * State.

Definition draw_ret {A} (a : A) : Draw A := fun st => (Ok a, [], st).

Definition draw_bind {A B} (m : Draw A) (f : A -> Draw B) : Draw B := fun st =>
  match m st with
  | (Ok a, items, st') =>
      match f a st' with
      | (r, items', st'') => (r, (items ++ items')%list, st'')
      end
  | (Raise e, items, st') => (Raise e, items, st')
  end.

(** A computation that draws nothing. *)
Definition quiet {A} (m : M A) : Draw A := fun st =>
  match m st with (r, st') => (r, [], st') end.

(** One item is put into the box. *)
Definition put (item : BoxItem) : Draw unit := fun st => (Ok tt, [item], st).

(** [check_module_version(module, package)]. *)
Definition check_module_version (i : Interpreter) (cfg : Settings)
    (module package : string) : M (option string) :=
  let package := or_else (Some package) module in
  spec ← try_except (find_spec i module) is_ValueError (fun _ => mret None);
  match spec with
  | Some _ => mret (metadata_version cfg package)
  | None => mret None
  end.

(** The body of the loop of the panel, for one dependency. *)
Definition dependency_rows (i : Interpreter) (cfg : Settings) (dep : Dependency)
  : Draw unit :=
  draw_bind (quiet (check_module_version i cfg (module dep) (package dep)))
    (fun ver =>
  draw_bind
    (put (Row [Label (match ver with
                      | Some ver =>
                          "Dependency Status: " +:+ display_name dep +:+ " " +:+ ver
                          +:+ " is installed."
                      | None =>
                          "Dependency Status: " +:+ display_name dep +:+ " not found."
                      end)]))
    (fun _ =>
  if manage_individually cfg then
    match ver with
    | Some _ =>
        put (Row [Button UninstallOperator "Unistall depencies" "CONSOLE" (package dep)])
    | None =>
        put (Row [Button InstallOperator "Install depencies" "CONSOLE" (package dep)])
    end
  else draw_ret tt)).

(** The loop of the panel. *)
Fixpoint all_dependency_rows (i : Interpreter) (cfg : Settings)
    (deps : list Dependency) : Draw unit :=
  match deps with
  | [] => draw_ret tt
  | dep :: rest =>
      draw_bind (dependency_rows i cfg dep) (fun _ => all_dependency_rows i cfg rest)
  end.

(** [dependency_manager_ui(self, context, layout)]: the content of the
    box, from top to bottom. *)
Definition dependency_manager_ui (i : Interpreter) (cfg : Settings) : Draw unit :=
  fun st =>
  match dependencies st with
  | None => put (BoxLabel "No dependencies have been defined") st
  | Some deps =>
      if negb (main_globals_assigned cfg)
      then put (BoxLabel "Main globals is not asigned") st
      else
        draw_bind (all_dependency_rows i cfg deps)
          (fun _ =>
             if manage_individually cfg then draw_ret tt
             else
               (* [row3] is in the box before the dependencies are checked *)
               fun st' =>
               match check_all_dependencies i st' with
               | (Raise e, st'') => (Raise e, [Row []], st'')
               | (Ok ok, st'') =>
                   (Ok tt,
                    [Row [Label (if (ok : bool)
                                 then "All dependencies are installed"
                                 else "Some dependencies are missing")];
                     Row [Button InstallOperator "Install all depencies" "CONSOLE"
                            EmptyString;
                          Button UninstallOperator "Unistall all depencies" "CONSOLE"
                            EmptyString]],
                    st'')
               end) st
  end.

End Panel.

(** ** [addon_dependency_manager.py]: the earlier install operator *)

Module Legacy.
Import Bpy DependencyManager Bootstrap.

(** The dataclass [Dependency] of this file; it has no [__post_init__]. *)
Record Dependency := {
  display_name : string;
  module : string;
  package : option string;
  name : option string;
  installed : bool;
}.

(** The state of the process and the global names of the module that
    are bound to modules. *)
Record Namespace := {
  base : State;
  globals : gmap string PyModule;
}.

Definition LM (A : Type) : Type := Namespace -> result A * Namespace.

(** A computation that does not look at the global names. *)
Definition lift {A} (m : M A) : LM A := fun ns =>
  let '(r, st) := m (base ns) in (r, {| base := st; globals := globals ns |}).

Section WithImportlib.
(** [importlib.import_module] and [importlib.reload]: what they return
    or raise, and what they do to the state of the process. *)
Variable lib_import_module : string -> M PyModule.
Variable lib_reload : PyModule -> M PyModule.
(** What [import ensurepip] and [ensurepip.bootstrap()] do: the
    exception they end with, if any, and [os.environ] afterwards. *)
Variable bootstrap : gmap string string -> option exn * gmap string string.

(** [import_module(module_name, global_name)]. *)
Definition import_module (module_name : string) (global_name : option string)
  : LM PyModule := fun ns =>
  let global_name := default module_name global_name in
  match globals ns !! global_name with
  | Some bound =>
      match lift (lib_reload bound) ns with
      | (Raise e, ns') => (Raise e, ns')
      | (Ok _, ns') => (Ok (default bound (globals ns' !! global_name)), ns')
      end
  | None =>
      match lift (lib_import_module module_name) ns with
      | (Raise e, ns') => (Raise e, ns')
      | (Ok m, ns') =>
          (Ok m, {| base := base ns'; globals := <[global_name := m]> (globals ns') |})
      end
  end.

(** [install_and_import_module(module_name, package_name, global_name)]. *)
Definition install_and_import_module (i : Interpreter) (module_name : string)
    (package_name global_name : option string) : LM unit := fun ns =>
  let package_name := default module_name package_name in
  let global_name := default module_name global_name in
  let environ_copy := <["PYTHONNOUSERSITE" := "1"]> (os_environ i) in
  match lift (subprocess_run i
                [sys_executable i; "-m"; "pip"; "install"; "--upgrade"; package_name]
                (Some environ_copy)) ns with
  | (Raise e, ns') => (Raise e, ns')
  | (Ok _, ns') =>
      match import_module module_name (Some global_name) ns' with
      | (Raise e, ns'') => (Raise e, ns'')
      | (Ok _, ns'') => (Ok tt, ns'')
      end
  end.

(** The loop of the operator. *)
Fixpoint install_all (i : Interpreter) (deps : list Dependency) : LM unit := fun ns =>
  match deps with
  | [] => (Ok tt, ns)
  | dep :: rest =>
      match install_and_import_module i (module dep) (package dep) (name dep) ns with
      | (Raise e, ns') => (Raise e, ns')
      | (Ok _, ns') => install_all i rest ns'
      end
  end.

(** [DEPENDENCY_OT_install_dependencies.execute] of this file. *)
Definition DEPENDENCY_OT_install_dependencies_execute (i : Interpreter)
    (dependencies : list Dependency) : LM Status := fun ns =>
  let body : LM unit := fun ns =>
    match install_pip bootstrap i (base ns) with
    | (Raise e, _, st') => (Raise e, {| base := st'; globals := globals ns |})
    | (Ok _, i', st') =>
        install_all i' dependencies {| base := st'; globals := globals ns |}
    end in
  match body ns with
  | (Ok _, ns') => (Ok FINISHED, ns')
  | (Raise err, ns') =>
      if is_install_error err
      then
        match lift (report "ERROR" err) ns' with
        | (_, ns'') => (Ok CANCELLED, ns'')
        end
      else (Raise err, ns')
  end.

End WithImportlib.

End Legacy.

(** ** Readings of states and runs used by the properties below *)

Module Readings.
Import Resolver DependencyManager Invocations Panel.

(** The commands a run spawned, in order. *)
Definition commands_of (evs : list Event) : list Command :=
  omap (fun ev => match ev with Spawned c => Some c | Printed _ => None end) evs.

(** The version the panel shows for a dependency whose module name has
    no dot: the installed version of its package when the module is
    loaded with a spec or the finders report one, and none otherwise. *)
Definition shown_version (i : Interpreter) (cfg : Settings) (st : State)
    (dep : Dependency) : option string :=
  let found :=
    match sys_modules st !! module dep with
    | Some m => module_spec m
    | None => finder i (spawned st) (module dep)
    end in
  match found with
  | Some _ => metadata_version cfg (or_else (Some (package dep)) (module dep))
  | None => None
  end.

(** The button the panel draws for a dependency it manages on its own. *)
Definition own_button (i : Interpreter) (cfg : Settings) (st : State)
    (dep : Dependency) : Widget :=
  match shown_version i cfg st dep with
  | Some _ => Button UninstallOperator "Unistall depencies" "CONSOLE" (package dep)
  | None => Button InstallOperator "Install depencies" "CONSOLE" (package dep)
  end.

(** The registered classes without those of [classes]. *)
Definition without (classes registered : list string) : list string :=
  List.filter (fun c => negb (existsb (String.eqb c) classes)) registered.

(** The registered classes after each class of [classes] that is not
    yet registered was added at the end, one after the other. *)
Definition with_missing (classes registered : list string) : list string :=
  fold_left (fun reg c => if bool_decide (c ∈ reg) then reg else (reg ++ [c])%list)
            classes registered.

(** Two states that differ at most in the registered classes. *)
Definition same_but_registered (st st' : State) : Prop :=
  dependencies st' = dependencies st
  /\ sys_modules st' = sys_modules st
  /\ next_object st' = next_object st
  /\ executed st' = executed st
  /\ spawned st' = spawned st
  /\ console st' = console st
  /\ reports st' = reports st.

(** A [DebuggerCheck] after the host delivered the events [evs] to its
    [modal], each with the connection flag of that moment. *)
Definition after_events (prefs : Debugger.Preferences) (evs : list (string * bool))
    (op : Debugger.DebuggerCheck) : Debugger.DebuggerCheck :=
  fold_left (fun op ev => snd (Debugger.modal op (fst ev) prefs (snd ev))) evs op.

(** Every timer handle in use is older than the next one to be given
    out. *)
Definition timers_fresh (wm : Debugger.WindowManager) : Prop :=
  Forall (fun t => (t < Debugger.next_timer wm)%nat) (Debugger.timers wm).

(** The buttons of a panel, from top to bottom. *)
Definition buttons_of (items : list BoxItem) : list Widget :=
  flat_map (fun item =>
              match item with
              | Row widgets =>
                  List.filter (fun w => match w with Button _ _ _ _ => true
                                                  | Label _ => false end) widgets
              | BoxLabel _ => []
              end) items.

End Readings.

(** ** More concrete states and interpreters *)

Module MoreSamples.
Import Bpy Resolver Debugger DependencyManager Operators Panel Samples.

(** The add-on fully set up: [debugpy] declared and the two dependant
    classes registered, next to a class of another add-on. *)
Definition running_state : State :=
  {| dependencies := Some [debugpy_dependency; pinned_dependency];
     sys_modules := ∅; next_object := 0;
     executed := []; spawned := []; console := []; reports := [];
     registered := ["OtherAddonPanel"; "DebuggerCheck"; "DebugServerStart"] |}.

(** An interpreter that finds every module, but the code of [cv2]
    raises [ImportError]; its package manager exits with status 1. *)
Definition broken_interpreter : Interpreter :=
  {| sys_executable := "/opt/blender/4.2/python/bin/python3.11";
     os_environ := {[ "HOME" := "/home/ann"; "PIP_REQ_TRACKER" := "/tmp/pip-req" ]};
     finder := fun _ name => Some {| spec_name := name; origin := name |};
     import_parent := fun modules _ parent => no_package modules parent;
     create_raises := fun _ => None;
     module_code := fun modules _ spec _ =>
       if String.eqb (spec_name spec) "cv2"
       then {| modules_after := modules; also_executed := [];
               raised := Some (ImportError "libGL") |}
       else no_effect modules;
     cannot_start := fun _ _ => None;
     returncode := fun _ _ => 1;
     dependant_classes := ["DebuggerCheck"; "DebugServerStart"] |}.

(** An interpreter whose executable is gone. *)
Definition lost_interpreter : Interpreter :=
  {| sys_executable := "/opt/blender/4.2/python/bin/python3.11";
     os_environ := {[ "HOME" := "/home/ann" ]};
     finder := fun _ _ => None;
     import_parent := fun modules _ parent => no_package modules parent;
     create_raises := fun _ => None;
     module_code := fun modules _ _ _ => no_effect modules;
     cannot_start := fun _ _ => Some "No such file or directory";
     returncode := fun _ _ => 0;
     dependant_classes := ["DebuggerCheck"; "DebugServerStart"] |}.

(** A session before the server was started. *)
Definition idle_session : Session :=
  {| search_path := ["/opt/blender/4.2/scripts/modules"];
     debugpy_bound := false; listening := []; notices := [];
     already_running := 0; waits := 0;
     window_manager := {| timers := []; next_timer := 0 |}; pollers := [] |}.

(** A server on the files of [sys_path_host]; a second [listen] on an
    address fails. *)
Definition venv_server : Server :=
  {| disk := sys_path_host;
     abspath := fun p => p;
     import_raises := fun _ => None;
     listen_raises := fun earlier address =>
       if existsb (fun a => String.eqb (fst a) (fst address) && (snd a =? snd address))
                  earlier
       then Some (OSError "already listening") else None;
     wait_raises := fun addresses =>
       match addresses with
       | [] => Some (RuntimeError "listen() or connect() must be called first")
       | _ => None
       end |}.

(** A server whose port is taken by another process: [listen] fails,
    and with nothing listened on the wait for the client fails too. *)
Definition busy_server : Server :=
  {| disk := sys_path_host;
     abspath := fun p => p;
     import_raises := fun _ => None;
     listen_raises := fun _ _ => Some (OSError "address already in use");
     wait_raises := fun addresses =>
       match addresses with
       | [] => Some (RuntimeError "listen() or connect() must be called first")
       | _ => None
       end |}.

Definition venv_preferences : Preferences :=
  {| path := "/home/ann/venv/site-packages"; timeout := 20; port := 5678 |}.

(** What [ensurepip.bootstrap()] leaves in the environment. *)
Definition sample_bootstrap (environ : gmap string string)
  : option exn * gmap string string :=
  (None, <["PIP_REQ_TRACKER" := "/tmp/pip-req-tracker-x"]> environ).

(** Panel settings: every package has version 1.8.0. *)
Definition panel_settings (individually : bool) : Settings :=
  {| main_globals_assigned := true;
     manage_individually := individually;
     metadata_version := fun _ => Some "1.8.0" |}.

(** The dependency list of the earlier file, an [importlib] that knows
    one module, and a namespace with no module bound. *)
Definition legacy_dependencies : list Legacy.Dependency :=
  [{| Legacy.display_name := "Debugpy"; Legacy.module := "debugpy";
      Legacy.package := None; Legacy.name := None; Legacy.installed := false |};
   {| Legacy.display_name := "OpenCV"; Legacy.module := "cv2";
      Legacy.package := Some "opencv-contrib-python"; Legacy.name := Some "cv";
      Legacy.installed := false |}].

Definition sample_import_module (name : string) : M PyModule :=
  exec_module (interpreter 0) debugpy_spec loaded_module ;; mret loaded_module.

Definition sample_reload (m : PyModule) : M PyModule :=
  exec_module (interpreter 0) debugpy_spec m ;; mret m.

Definition idle_namespace : Legacy.Namespace :=
  {| Legacy.base := fresh_state None; Legacy.globals := ∅ |}.

End MoreSamples.

(** * Properties *)

(** ** Sample evaluations of the string and path helpers *)

Example splitlines_sample :
  splitlines ("a" +:+ String (ascii_of_nat 13) (String (ascii_of_nat 10) "b")
              +:+ String (ascii_of_nat 10) EmptyString) = ["a"; "b"].
Proof. reflexivity. Qed.
Example normpath_sample :
  map PosixPath.normpath ["/usr//lib/./x/../y/"; EmptyString; "a/../.."; "//x"; "///x"; "/.."]
  = ["/usr/lib/y"; "."; ".."; "//x"; "/x"; "/"].
Proof. reflexivity. Qed.
Example dirname_sample :
  map PosixPath.dirname ["/usr/bin/python"; "python"; "/python"; "//"; "a//b"]
  = ["/usr/bin"; EmptyString; "/"; "//"; "a"].
Proof. reflexivity. Qed.
Example join_sample :
  map (fun ab => PosixPath.join (fst ab) (snd ab))
      [("/a", "b"); ("/a/", "b"); ("/a", "/b"); (EmptyString, "b")]
  = ["/a/b"; "/a/b"; "/b"; "b"].
Proof. reflexivity. Qed.
Example rstrip_sample :
  rstrip "a b  " = "a b"
  /\ re_search_rest "Location: " "xLocation: /p " = Some "/p ".
Proof. split; reflexivity. Qed.

(** ** The path resolver *)

Section ResolverFacts.
Import Resolver Strategies.
Variable h : Host.

(** Each block of [check_for_debugpy] finds the first place of its
    strategy's list. *)
Lemma platlib_probe_places :
  platlib_probe h = first_match h (platlib_places h).
Proof.
  unfold platlib_probe, platlib_places, first_match.
  destruct (get_platlib h) as [p|]; [|reflexivity].
  destruct (truthy p); [|reflexivity].
  simpl. unfold contains_package.
  now destruct (path_exists h (join h (normpath h p) "debugpy")).
Qed.

Lemma sys_path_probe_places (entries : list string) :
  sys_path_probe h entries = first_match h (flat_map (entry_places h) entries).
Proof.
  unfold first_match.
  induction entries as [|e es IH]; [reflexivity|].
  cbn [sys_path_probe flat_map entry_places app List.find joins fold_left].
  unfold contains_package at 1 2 3.
  destruct (path_exists h (join h (normpath h e) "debugpy")); [reflexivity|].
  destruct (path_exists h (join h (join h (normpath h e) "site-packages") "debugpy"));
    [reflexivity|].
  destruct (path_exists h
              (join h (join h (join h (normpath h e) "lib") "site-packages") "debugpy"));
    [reflexivity|].
  exact IH.
Qed.

Lemma str_in_search (pat x : string) :
  str_in pat x = match re_search_rest pat x with Some _ => true | None => false end.
Proof. unfold str_in, re_search_rest. now destruct (find_after pat x). Qed.

Lemma location_probe_places (lines : list string) :
  location_probe h (List.filter (str_in "Location: ") lines)
  = first_match h (map (fun value => normpath h (rstrip value))
                       (omap (re_search_rest "Location: ") lines)).
Proof.
  unfold first_match.
  induction lines as [|x xs IH]; [reflexivity|].
  cbn [List.filter omap list_omap]. rewrite str_in_search.
  destruct (re_search_rest "Location: " x) as [g|] eqn:E; [|exact IH].
  cbn [location_probe map List.find]. rewrite E.
  unfold contains_package at 1.
  destruct (path_exists h (join h (normpath h (rstrip g)) "debugpy"));
    [reflexivity|exact IH].
Qed.

Lemma python_probe_places (lines : list string) :
  python_probe h lines
  = first_match h
      (map (fun line => join h (join h (dirname h (normpath h line)) "lib") "site-packages")
           lines).
Proof.
  unfold first_match.
  induction lines as [|x xs IH]; [reflexivity|].
  cbn [python_probe map List.find joins fold_left]. unfold contains_package at 1.
  destruct (path_exists h
    (join h (join h (join h (dirname h (normpath h x)) "lib") "site-packages") "debugpy"));
    [reflexivity|exact IH].
Qed.

(** Block 3 is the lookup of strategy 3. *)
Lemma pip_probe_lookup :
  pip_probe h = (lookup h (pip_places h) pip_show, events_of h pip_show).
Proof.
  unfold pip_probe, lookup, events_of, pip_places.
  destruct (popen h pip_show) as [e|[text|]]; cbn [decode]; [reflexivity| |reflexivity].
  now rewrite location_probe_places.
Qed.

(** Block 4 on a command that finds a place, and on one that does not. *)
Lemma system_probe_found (c : Command) (rest : list Command) (dir : string) :
  lookup h (python_places h) c = Ok (Some dir) ->
  system_probe h (c :: rest) = (Ok (Some dir), [Spawned c]).
Proof.
  unfold lookup, python_places. cbn [system_probe].
  destruct (popen h c) as [e|[text|]]; cbn [decode]; try discriminate.
  rewrite python_probe_places. intros [= ->]. reflexivity.
Qed.

Lemma system_probe_raised (c : Command) (rest : list Command) (e : exn) :
  lookup h (python_places h) c = Raise e ->
  system_probe h (c :: rest) = (Raise e, [Spawned c]).
Proof.
  unfold lookup. cbn [system_probe].
  destruct (popen h c) as [e'|[text|]]; cbn [decode]; try discriminate.
  intros [= ->]. reflexivity.
Qed.

Lemma system_probe_missed (c : Command) (rest : list Command) :
  lookup h (python_places h) c = Ok None ->
  system_probe h (c :: rest)
  = (fst (system_probe h rest), (events_of h c ++ snd (system_probe h rest))%list).
Proof.
  unfold lookup, python_places, events_of. cbn [system_probe].
  destruct (popen h c) as [e|[text|]]; cbn [decode]; try discriminate.
  - intros _. destruct (system_probe h rest); reflexivity.
  - rewrite python_probe_places. unfold first_match. intros [= ->].
    destruct (system_probe h rest); reflexivity.
Qed.

Lemma system_probe_skip (pre rest : list Command) :
  Forall (fun c => lookup h (python_places h) c = Ok None) pre ->
  system_probe h (pre ++ rest)
  = (fst (system_probe h rest),
     (flat_map (events_of h) pre ++ snd (system_probe h rest))%list).
Proof.
  induction 1 as [|c pre Hc _ IH].
  - cbn [app flat_map]. destruct (system_probe h rest); reflexivity.
  - cbn [app flat_map]. rewrite (system_probe_missed _ _ Hc), IH. cbn [fst snd].
    now rewrite <- app_assoc.
Qed.

Lemma system_probe_nil : system_probe h [] = (Ok None, []).
Proof. reflexivity. Qed.

End ResolverFacts.

Section ResolverOrder.
Import Resolver Strategies.
Variable h : Host.

(** A strategy's result is a place of its list that contains the
    package, and no earlier place of the list does. *)
Lemma first_match_spec (dirs : list string) (dir : string) :
  first_match h dirs = Some dir <->
  exists before after,
    dirs = (before ++ dir :: after)%list
    /\ contains_package h dir = true
    /\ Forall (fun d => contains_package h d = false) before.
Proof.
  unfold first_match. induction dirs as [|d ds IH]; cbn [List.find].
  - split; [discriminate|]. intros ([|? ?] & ? & E & _); discriminate E.
  - destruct (contains_package h d) eqn:Hd.
    + split.
      * intros [= ->]. exists [], ds. repeat split; [assumption|constructor].
      * intros ([|b bs] & after & E & Hdir & Hb); injection E as -> ->; [reflexivity|].
        inversion Hb; congruence.
    + rewrite IH. split.
      * intros (before & after & -> & Hdir & Hb).
        exists (d :: before), after. repeat split; [assumption|now constructor].
      * intros ([|b bs] & after & E & Hdir & Hb); injection E as -> ->; [congruence|].
        exists bs, after. repeat split; [assumption|now inversion Hb].
Qed.

Lemma first_match_contains (dirs : list string) (dir : string) :
  first_match h dirs = Some dir -> contains_package h dir = true.
Proof. rewrite first_match_spec. now intros (? & ? & _ & H & _). Qed.

(** The whole function in terms of the strategies. *)
Lemma check_for_debugpy_places :
  check_for_debugpy h =
  match first_match h (platlib_places h) with
  | Some dir => (Ok dir, [])
  | None =>
  match first_match h (sys_path_places h) with
  | Some dir => (Ok dir, [])
  | None =>
  match lookup h (pip_places h) pip_show with
  | Raise e => (Raise e, events_of h pip_show)
  | Ok (Some dir) => (Ok dir, events_of h pip_show)
  | Ok None =>
      match system_probe h checks with
      | (Raise e, evs) => (Raise e, (events_of h pip_show ++ evs)%list)
      | (Ok (Some dir), evs) => (Ok dir, (events_of h pip_show ++ evs)%list)
      | (Ok None, evs) => (Ok NOT_FOUND_MESSAGE, (events_of h pip_show ++ evs)%list)
      end
  end end end.
Proof.
  unfold check_for_debugpy, sys_path_places.
  rewrite platlib_probe_places, sys_path_probe_places, pip_probe_lookup.
  destruct (first_match h (platlib_places h)); [reflexivity|].
  destruct (first_match h (flat_map (entry_places h) (sys_path h))); [reflexivity|].
  destruct (lookup h (pip_places h) pip_show) as [[dir|]|e]; reflexivity.
Qed.

Lemma lookup_found_events (places : string -> list string) (c : Command) (dir : string) :
  lookup h places c = Ok (Some dir) -> events_of h c = [Spawned c].
Proof.
  unfold lookup, events_of. now destruct (popen h c) as [e|[text|]].
Qed.

Lemma lookup_found_contains (places : string -> list string) (c : Command) (dir : string) :
  lookup h places c = Ok (Some dir) -> contains_package h dir = true.
Proof.
  unfold lookup. destruct (popen h c) as [e|[text|]]; try discriminate.
  intros [= H]. exact (first_match_contains _ _ H).
Qed.

(** What block 4 can answer, and when. *)
Lemma system_probe_cases (commands : list Command) :
  match system_probe h commands with
  | (Ok (Some dir), _) => contains_package h dir = true
  | (Ok None, evs) =>
      Forall (fun c => lookup h (python_places h) c = Ok None) commands
      /\ evs = flat_map (events_of h) commands
  | (Raise e, _) => True
  end.
Proof.
  induction commands as [|c cs IH]; [now split|].
  destruct (lookup h (python_places h) c) as [[dir|]|e] eqn:E.
  - rewrite (system_probe_found _ _ _ _ E). exact (lookup_found_contains _ _ _ E).
  - rewrite (system_probe_missed _ _ _ E).
    destruct (system_probe h cs) as [[[dir|]|e] evs]; cbn [fst snd]; try exact IH.
    destruct IH as [IH ->]. split; [now constructor|reflexivity].
  - rewrite (system_probe_raised _ _ _ _ E). exact I.
Qed.

(** When every strategy misses, the run goes through all of them and
    answers with the sentinel. *)
Lemma check_for_debugpy_not_found :
  every_strategy_misses h ->
  check_for_debugpy h
  = (Ok NOT_FOUND_MESSAGE,
     (events_of h pip_show ++ flat_map (events_of h) checks)%list).
Proof.
  intros (H1 & H2 & H3 & H4).
  rewrite check_for_debugpy_places, H1, H2, H3.
  rewrite <- (app_nil_r checks) at 1.
  rewrite (system_probe_skip _ _ _ H4), system_probe_nil. cbn [fst snd].
  now rewrite app_nil_r.
Qed.

End ResolverOrder.

Import Resolver Strategies Samples.

(** The priority order of [check_for_debugpy] on the runs in which the
    output of every command that was started can be decoded: the four
    strategies are tried in a fixed order and the first match wins.
    (1) When the platform library path contains the package, that path
    is returned and nothing is spawned.  (2) Otherwise, when a place of
    the module search path (an entry, its [site-packages], its
    [lib/site-packages], entry after entry) contains the package, the
    first such place is returned and nothing is spawned.  (3) Otherwise,
    when a [Location: ] value printed by the package manager contains
    the package, the first such value is returned and only the package
    manager was spawned.  (4) Otherwise, when the package manager found
    nothing, the lookup commands before [c] found nothing and [c] prints
    a path with the package in [lib/site-packages] next to it, that
    place is returned and no command after [c] was spawned. *)
Lemma check_for_debugpy_priority (h : Host) :
  (forall dir,
      first_match h (platlib_places h) = Some dir ->
      check_for_debugpy h = (Ok dir, []))
  /\ (forall dir,
      first_match h (platlib_places h) = None ->
      first_match h (sys_path_places h) = Some dir ->
      check_for_debugpy h = (Ok dir, []))
  /\ (forall dir,
      first_match h (platlib_places h) = None ->
      first_match h (sys_path_places h) = None ->
      lookup h (pip_places h) pip_show = Ok (Some dir) ->
      check_for_debugpy h = (Ok dir, [Spawned pip_show]))
  /\ (forall before c after dir,
      checks = (before ++ c :: after)%list ->
      first_match h (platlib_places h) = None ->
      first_match h (sys_path_places h) = None ->
      lookup h (pip_places h) pip_show = Ok None ->
      Forall (fun c' => lookup h (python_places h) c' = Ok None) before ->
      lookup h (python_places h) c = Ok (Some dir) ->
      check_for_debugpy h
      = (Ok dir,
         (events_of h pip_show ++ flat_map (events_of h) before ++ [Spawned c])%list)).
Proof.
  repeat split.
  - intros dir H1. now rewrite check_for_debugpy_places, H1.
  - intros dir H1 H2. now rewrite check_for_debugpy_places, H1, H2.
  - intros dir H1 H2 H3.
    now rewrite check_for_debugpy_places, H1, H2, H3, (lookup_found_events _ _ _ _ H3).
  - intros before c after dir E H1 H2 H3 Hb Hc.
    rewrite check_for_debugpy_places, H1, H2, H3, E.
    rewrite (system_probe_skip _ _ _ Hb), (system_probe_found _ _ _ _ Hc).
    reflexivity.
Qed.

Lemma check_for_debugpy_priority_witness :
  check_for_debugpy platlib_host
  = (Ok "/opt/blender/4.2/python/lib/python3.11/site-packages", [])
  /\ check_for_debugpy sys_path_host = (Ok "/home/ann/venv/site-packages", [])
  /\ check_for_debugpy pip_host
     = (Ok "/home/ann/.local/lib/python3.11/site-packages", [Spawned pip_show])
  /\ check_for_debugpy system_host
     = (Ok "/usr/bin/lib/site-packages",
        [Spawned pip_show;
         Spawned (CommandArgs ["where"; "python"]); Printed (OSError "where");
         Spawned (CommandArgs ["whereis"; "python"]);
         Spawned (CommandArgs ["which"; "python"])]).
Proof.
  split; [|split; [|split]].
  - apply (proj1 (check_for_debugpy_priority platlib_host)). reflexivity.
  - apply (proj1 (proj2 (check_for_debugpy_priority sys_path_host))); reflexivity.
  - apply (proj1 (proj2 (proj2 (check_for_debugpy_priority pip_host)))); reflexivity.
  - apply (proj2 (proj2 (proj2 (check_for_debugpy_priority system_host)))
             [CommandArgs ["where"; "python"]; CommandArgs ["whereis"; "python"]]
             (CommandArgs ["which"; "python"]) []);
      try reflexivity.
    repeat constructor.
Defined.

(** C3: the priority order fails for strategy 4.  On a host where the
    package sits in [lib/site-packages] next to the system interpreter,
    which every lookup command would print, and where no earlier
    strategy has a place with the package, [check_for_debugpy] does not
    return that place: the package manager prints bytes that are not
    UTF-8, the decoding of its output, which no [try] guards, raises
    [UnicodeDecodeError], and no lookup command is started. *)
Theorem check_for_debugpy_priority_lost :
  first_match hidden_host (platlib_places hidden_host) = None
  /\ first_match hidden_host (sys_path_places hidden_host) = None
  /\ popen hidden_host pip_show = PopenStdout NotUtf8
  /\ Forall (fun c => lookup hidden_host (python_places hidden_host) c
                      = Ok (Some "/usr/bin/lib/site-packages")) checks
  /\ contains_package hidden_host "/usr/bin/lib/site-packages" = true
  /\ check_for_debugpy hidden_host = (Raise UnicodeDecodeError, [Spawned pip_show]).
Proof. repeat split. repeat constructor. Qed.

(** C4: on a host where nothing is installed and the package manager
    prints bytes that are not UTF-8, no place of any strategy contains the
    package, yet [check_for_debugpy] does not return the sentinel: the
    decoding of the output, which no [try] guards, raises
    [UnicodeDecodeError] and ends the search after the first command. *)
Theorem check_for_debugpy_undecodable :
  (forall dir, contains_package undecodable_host dir = false)
  /\ popen undecodable_host pip_show = PopenStdout NotUtf8
  /\ check_for_debugpy undecodable_host
     = (Raise UnicodeDecodeError, [Spawned pip_show]).
Proof. repeat split. Qed.

(** C5, as the code has it: the sentinel is an ordinary text.  On a host
    whose module search path has the entry [debugpy not found], with the
    package inside, strategy 2 finds the package there and the value
    returned is the sentinel itself. *)
Lemma sentinel_is_a_found_path :
  first_match clash_host (sys_path_places clash_host) = Some NOT_FOUND_MESSAGE
  /\ contains_package clash_host NOT_FOUND_MESSAGE = true
  /\ check_for_debugpy clash_host = (Ok NOT_FOUND_MESSAGE, []).
Proof. repeat split. Qed.

(** C5, amended: whenever [check_for_debugpy] returns a value [p] other
    than the sentinel, the package directory exists under [p]; and on a
    host where no directory named like the sentinel contains the package,
    the sentinel is returned exactly when every strategy missed. *)
Theorem check_for_debugpy_result (h : Host) (p : string) (evs : list Event) :
  check_for_debugpy h = (Ok p, evs) ->
  (p <> NOT_FOUND_MESSAGE -> contains_package h p = true)
  /\ (contains_package h NOT_FOUND_MESSAGE = false ->
      (p = NOT_FOUND_MESSAGE <-> every_strategy_misses h)).
Proof.
  intros Hrun.
  assert (Hcases : (contains_package h p = true /\ ~ every_strategy_misses h)
                   \/ (p = NOT_FOUND_MESSAGE /\ every_strategy_misses h)).
  { revert Hrun. rewrite check_for_debugpy_places. unfold every_strategy_misses.
    destruct (first_match h (platlib_places h)) as [d|] eqn:H1.
    { intros [= <- <-]. left. split; [exact (first_match_contains _ _ _ H1)|].
      intros (? & _); discriminate. }
    destruct (first_match h (sys_path_places h)) as [d|] eqn:H2.
    { intros [= <- <-]. left. split; [exact (first_match_contains _ _ _ H2)|].
      intros (_ & ? & _); discriminate. }
    destruct (lookup h (pip_places h) pip_show) as [[d|]|e] eqn:H3; [| |discriminate].
    { intros [= <- <-]. left. split; [exact (lookup_found_contains _ _ _ _ H3)|].
      intros (_ & _ & ? & _); discriminate. }
    pose proof (system_probe_cases h checks) as H4.
    destruct (system_probe h checks) as [[[d|]|e] evs4] eqn:E4; [| |discriminate].
    - intros [= <- <-]. left. split; [exact H4|].
      intros (_ & _ & _ & Hall).
      rewrite <- (app_nil_r checks), (system_probe_skip _ _ _ Hall) in E4.
      discriminate E4.
    - intros [= <- <-]. right. destruct H4 as [H4 _]. now repeat split. }
  split.
  - intros Hp. destruct Hcases as [[H _]|[H _]]; [exact H|contradiction].
  - intros Hs. destruct Hcases as [[H Hn]|[H Hm]].
    + split; [|contradiction]. intros ->. congruence.
    + now split.
Qed.

Lemma check_for_debugpy_result_witness :
  contains_package sys_path_host "/home/ann/venv/site-packages" = true
  /\ every_strategy_misses bare_host.
Proof.
  split.
  - apply (check_for_debugpy_result sys_path_host "/home/ann/venv/site-packages" []);
      [reflexivity|discriminate].
  - apply (check_for_debugpy_result bare_host NOT_FOUND_MESSAGE
             (snd (check_for_debugpy bare_host))); reflexivity.
Defined.

(** ** The attach-confirmation poller *)

Section PollerFacts.
Import Bpy Debugger.
Variable prefs : Preferences.

Lemma modal_count (op : DebuggerCheck) (event_type : string) (flag : bool) :
  snd (modal op event_type prefs flag) = counted op 1.
Proof. unfold modal. now destruct (String.eqb event_type "TIMER"). Qed.

Lemma modal_timer_status (op : DebuggerCheck) (flag : bool) :
  fst (fst (modal op "TIMER" prefs flag))
  = if count op + 1 >? modal_limit op then CANCELLED
    else if flag then FINISHED else PASS_THROUGH.
Proof.
  unfold modal, check_done. cbn [String.eqb Ascii.eqb Bool.eqb count modal_limit fst].
  destruct (count op + 1 >? modal_limit op); [reflexivity|]. now destruct flag.
Qed.





End PollerFacts.

Import Bpy Debugger.

(** With a limit of one tick and the client connected at the first tick
    the poller ends in [Attached]. *)
Example attached_at_first_tick :
  run default_preferences [true]
    (Waiting {| timer := Some 0%nat; count := 0; modal_limit := 1 |}) = Attached.
Proof. reflexivity. Qed.

(** Events other than timer ticks count as well, and are passed on. *)
Example other_events_count :
  modal five_ticks "MOUSEMOVE" default_preferences true
  = (PASS_THROUGH, [], counted five_ticks 1).
Proof. reflexivity. Qed.

(** The timeout is tested before the connection flag.  With a limit of
    five ticks and the client connecting at the sixth tick, the poller
    ends in [TimedOut]; and with a timeout preference of 0 a client that
    is connected from the start is never reported. *)
Example connected_too_late_times_out :
  run default_preferences [false; false; false; false; false; true] (Waiting five_ticks)
  = TimedOut
  /\ tick default_preferences true (Waiting (counted five_ticks 5)) = TimedOut
  /\ (let prefs := {| path := "/site"; timeout := 0; port := 5678 |} in
      let started := snd (fst (execute DebuggerCheck_new prefs
                                  {| timers := []; next_timer := 0 |})) in
      tick prefs true (Waiting started) = TimedOut).
Proof. repeat split. Qed.



(** ** The preferences *)

(** C9, as the code has it: the timeout preference is declared with the
    default 20, not 1200. *)
Lemma timeout_default_is_20 :
  exists path_property port_property,
    DebuggerPreferences bare_host
    = Ok [("path", path_property);
          ("timeout", IntProperty "Timeout" 20 None None);
          ("port", port_property)]
    /\ IntProperty "Timeout" 20 None None <> IntProperty "Timeout" 1200 None None.
Proof. do 2 eexists. split; [reflexivity|discriminate]. Qed.

(** C9, amended: whenever the resolver returns, the add-on declares
    exactly three preferences: [path], a string whose default is what the
    resolver returned; [timeout], an integer with default 20 and no bounds
    of its own; [port], an integer with default 5678 that admits exactly
    the values from 0 to 65535.  The poller's limit is the timeout times
    60, which is 1200 for the default. *)
Theorem preferences_surface (h : Host) (found : string) :
  fst (check_for_debugpy h) = Ok found ->
  DebuggerPreferences h
  = Ok [("path", StringProperty "Location of debugpy (site-packages folder)" "DIR_PATH" found);
        ("timeout", IntProperty "Timeout" 20 None None);
        ("port", IntProperty "Port" 5678 (Some 0) (Some 65535))]
  /\ (forall v, admits (IntProperty "Port" 5678 (Some 0) (Some 65535)) v = true
                <-> 0 <= v <= 65535)
  /\ (forall op prefs wm,
        modal_limit (snd (fst (execute op prefs wm))) = timeout prefs * 60)
  /\ timeout default_preferences * 60 = 1200.
Proof.
  intros Hfound. repeat split.
  - unfold DebuggerPreferences. now rewrite Hfound.
  - unfold admits, int_admits in H. cbn in H. lia.
  - unfold admits, int_admits in H. cbn in H. lia.
  - intros [Hlo Hhi]. unfold admits, int_admits. cbn.
    apply andb_true_intro. split; lia.
Qed.

Lemma preferences_surface_witness :
  DebuggerPreferences sys_path_host
  = Ok [("path", StringProperty "Location of debugpy (site-packages folder)" "DIR_PATH"
                   "/home/ann/venv/site-packages");
        ("timeout", IntProperty "Timeout" 20 None None);
        ("port", IntProperty "Port" 5678 (Some 0) (Some 65535))].
Proof.
  apply (preferences_surface sys_path_host "/home/ann/venv/site-packages").
  reflexivity.
Defined.

(** ** The dependency manager *)

Import DependencyManager Invocations.

Ltac run_monad :=
  unfold mbind, M_bind, mret, M_ret, get, raise, try_except, print, report,
    module_from_spec, set_sys_module, exec_module, run_effect, apply_effect,
    subprocess_run, set_registered;
  cbn.

Section ManagerFacts.
Variable i : Interpreter.

Lemma same_but_logs_refl (st : State) : same_but_logs st st.
Proof. now repeat split. Qed.

Lemma same_but_logs_trans (a b c : State) :
  same_but_logs a b -> same_but_logs b c -> same_but_logs a c.
Proof. unfold same_but_logs. intuition congruence. Qed.

Lemma import_frame_refl (st : State) : import_frame st st.
Proof. now repeat split. Qed.

Lemma import_frame_trans (a b c : State) :
  import_frame a b -> import_frame b c -> import_frame a c.
Proof. unfold import_frame. intuition congruence. Qed.

(** *** Names without a dot *)

Lemma top_level_parent (name : string) :
  top_level name = true -> parent_of name = EmptyString.
Proof.
  unfold top_level. destruct name as [|c t]; cbn; [reflexivity|].
  intros H. apply negb_true_iff, orb_false_iff in H as [_ Ht]. now rewrite Ht.
Qed.

Lemma top_level_not_relative (name : string) :
  top_level name = true -> starts_with_dot name = false.
Proof.
  unfold top_level. destruct name as [|c t]; cbn; [reflexivity|].
  intros H. now apply negb_true_iff, orb_false_iff in H as [Hc _].
Qed.

(** *** [find_spec] *)

(** For a name without a dot [find_spec] runs no code: it reads
    [sys.modules] and asks the finders. *)
Lemma find_spec_top_level (name : string) (st : State) :
  top_level name = true ->
  find_spec i name st
  = (match sys_modules st !! name with
     | Some m =>
         match module_spec m with
         | Some spec => Ok (Some spec)
         | None => Raise (ValueError (name +:+ ".__spec__ is None"))
         end
     | None => Ok (finder i (spawned st) name)
     end, st).
Proof.
  intros Htop. unfold find_spec.
  rewrite (top_level_not_relative name Htop), (top_level_parent name Htop). cbn.
  destruct (sys_modules st !! name) as [m|]; [|reflexivity].
  now destruct (module_spec m).
Qed.

(** Whatever the name, [find_spec] changes at most the import state. *)
Lemma find_spec_frame (name : string) (st : State) :
  import_frame st (snd (find_spec i name st)).
Proof.
  unfold find_spec.
  destruct (starts_with_dot name); [apply import_frame_refl|].
  destruct (sys_modules st !! name) as [m|].
  - destruct (module_spec m); apply import_frame_refl.
  - destruct (truthy (parent_of name)); [|apply import_frame_refl].
    unfold run_effect. destruct (raised _); now repeat split.
Qed.


(** *** [check_dependency_state] and what is built on it *)


Lemma check_dependency_state_frame (dep : option Dependency) (st : State) :
  import_frame st (snd (check_dependency_state i dep st)).
Proof.
  unfold check_dependency_state. destruct dep as [dep|]; [|apply import_frame_refl].
  unfold mbind, M_bind, get.
  destruct (sys_modules st !! module dep); [apply import_frame_refl|].
  pose proof (find_spec_frame (module dep) st) as H.
  destruct (find_spec i (module dep) st) as [[[spec|]|e] st']; exact H.
Qed.

(** For a module name without a dot the check is a pure read. *)
Lemma check_dependency_state_top (dep : Dependency) (st : State) :
  top_level (module dep) = true ->
  exists b,
    check_dependency_state i (Some dep) st = (Ok b, st)
    /\ (b = true <-> installed i st dep).
Proof.
  intros Htop. unfold check_dependency_state, installed, mbind, M_bind, get.
  destruct (sys_modules st !! module dep) as [m|] eqn:Hm.
  - exists true. split; [reflexivity|]. split; [eauto|reflexivity].
  - rewrite (find_spec_top_level _ _ Htop), Hm.
    destruct (finder i (spawned st) (module dep)) as [spec|] eqn:Hs.
    + exists true. split; [reflexivity|]. split; [eauto|reflexivity].
    + exists false. split; [reflexivity|]. split; [discriminate|].
      intros [[? [=]]|[? [=]]].
Qed.

Lemma all_dependency_states_top (deps : list Dependency) (st : State) :
  Forall (fun dep => top_level (module dep) = true) deps ->
  exists b,
    all_dependency_states i deps st = (Ok b, st)
    /\ (b = true <-> Forall (installed i st) deps).
Proof.
  induction 1 as [|dep deps Htop _ IH].
  - exists true. split; [reflexivity|]. split; [constructor|reflexivity].
  - cbn [all_dependency_states]. unfold mbind, M_bind.
    destruct (check_dependency_state_top dep st Htop) as ([|] & -> & Hb).
    + destruct IH as (b & -> & IH). exists b. split; [reflexivity|].
      rewrite IH. split.
      * intros Hall. constructor; [now apply Hb|exact Hall].
      * intros Hall. now inversion Hall.
    + exists false. split; [reflexivity|]. split; [discriminate|].
      intros Hall. inversion Hall as [|? ? Hdep _]. now apply Hb in Hdep.
Qed.

Lemma all_dependency_states_frame (deps : list Dependency) (st : State) :
  import_frame st (snd (all_dependency_states i deps st)).
Proof.
  revert st. induction deps as [|dep deps IH]; intros st; [apply import_frame_refl|].
  cbn [all_dependency_states]. unfold mbind, M_bind.
  pose proof (check_dependency_state_frame (Some dep) st) as H.
  destruct (check_dependency_state i (Some dep) st) as [[[|]|e] st1]; cbn in H |- *;
    [|exact H|exact H].
  eapply import_frame_trans; [exact H|apply IH].
Qed.

Lemma check_all_dependencies_top (deps : list Dependency) (st : State) :
  dependencies st = Some deps ->
  Forall (fun dep => top_level (module dep) = true) deps ->
  exists b,
    check_all_dependencies i st = (Ok b, st)
    /\ (b = true <-> Forall (installed i st) deps).
Proof.
  intros Hdeps Htop. unfold check_all_dependencies, mbind, M_bind, get.
  rewrite Hdeps. now apply all_dependency_states_top.
Qed.

Lemma check_all_dependencies_frame (st : State) :
  import_frame st (snd (check_all_dependencies i st)).
Proof.
  unfold check_all_dependencies, mbind, M_bind, get.
  destruct (dependencies st); [apply all_dependency_states_frame|apply import_frame_refl].
Qed.

(** Registering classes touches nothing but the set of registered
    classes. *)
Lemma register_each_run (classes : list string) (st : State) :
  exists st',
    register_each classes st = (Ok tt, st')
    /\ reports st' = reports st /\ spawned st' = spawned st
    /\ console st' = console st /\ dependencies st' = dependencies st
    /\ sys_modules st' = sys_modules st /\ executed st' = executed st.
Proof.
  revert st. induction classes as [|cls rest IH]; intros st; [now exists st|].
  cbn [register_each]. run_monad.
  destruct (bool_decide (cls ∈ registered st)); cbn.
  - apply IH.
  - destruct (IH {| dependencies := dependencies st; sys_modules := sys_modules st;
                    next_object := next_object st; executed := executed st;
                    spawned := spawned st; console := console st;
                    reports := reports st;
                    registered := (registered st ++ [cls])%list |})
      as (st' & -> & H); now exists st'.
Qed.

(** [register_dependant_classes] spawns, prints and reports nothing,
    whether the check of the dependencies returns or raises. *)
Lemma register_dependant_classes_frame (st : State) :
  let run := register_dependant_classes i st in
  reports (snd run) = reports st /\ spawned (snd run) = spawned st
  /\ console (snd run) = console st /\ dependencies (snd run) = dependencies st.
Proof.
  cbv zeta. unfold register_dependant_classes, mbind, M_bind.
  pose proof (check_all_dependencies_frame st) as (Hd & _ & Hs & Hc & Hr & _).
  destruct (check_all_dependencies i st) as [[[|]|e] st1]; cbn in *; try tauto.
  destruct (register_each_run (dependant_classes i) st1) as (st' & -> & H1 & H2 & H3 & H4 & _).
  cbn. repeat split; congruence.
Qed.

(** With module names without a dot it returns, and leaves the import
    state alone. *)
Lemma register_dependant_classes_run (deps : list Dependency) (st : State) :
  dependencies st = Some deps ->
  Forall (fun dep => top_level (module dep) = true) deps ->
  exists st',
    register_dependant_classes i st = (Ok tt, st')
    /\ reports st' = reports st /\ spawned st' = spawned st
    /\ console st' = console st /\ dependencies st' = dependencies st
    /\ sys_modules st' = sys_modules st /\ executed st' = executed st.
Proof.
  intros Hdeps Htop. unfold register_dependant_classes, mbind, M_bind.
  destruct (check_all_dependencies_top deps st Hdeps Htop) as ([|] & -> & _); cbn.
  - apply register_each_run.
  - now exists st.
Qed.

(** *** Installing *)

(** An install logs one call of the package manager.  It raises only
    when the child cannot be started; an exit status other than 0 is
    printed and that is all. *)
Lemma install_module_run (package_name : string) (constraint : option string)
    (st : State) :
  let child := {| argv := install_argv i package_name constraint;
                  env := Some (child_environ i) |} in
  exists st',
    install_module i (Some package_name) constraint st
    = (match cannot_start i st child with
       | Some msg => Raise (OSError msg)
       | None => Ok tt
       end, st')
    /\ spawned st' = (spawned st ++ [child])%list
    /\ same_but_logs st st'.
Proof.
  cbv zeta. unfold install_module, install_argv, child_environ. run_monad.
  destruct (cannot_start i st _); cbn.
  - eexists. split; [reflexivity|]. cbn. split; [reflexivity|now repeat split].
  - destruct (returncode i st _ =? 0); cbn; eexists; (split; [reflexivity|]);
      cbn; (split; [reflexivity|now repeat split]).
Qed.

Lemma install_each_cons (dep : Dependency) (rest : list Dependency) (st : State) :
  install_each i (dep :: rest) st
  = match install_module i (Some (package dep)) (version dep) st with
    | (Ok _, st1) => install_each i rest st1
    | (Raise e, st1) =>
        if is_install_error e
        then (report "ERROR" e ;; mret (Some CANCELLED)) st1
        else (Raise e, st1)
    end.
Proof.
  cbn [install_each]. unfold mbind at 1, M_bind at 1, try_except.
  unfold mbind at 1, M_bind at 1.
  destruct (install_module i (Some (package dep)) (version dep) st) as [[[]|e] st1];
    cbn; [reflexivity|].
  now destruct (is_install_error e).
Qed.

(** The loop of the install operator never leaves through its handler:
    it runs to its end, or a child that cannot be started ends it with
    an [OSError]. *)
Lemma install_each_run (dep_list : list Dependency) (st : State) :
  exists done,
    done `prefix_of` dep_list
    /\ map argv (spawned (snd (install_each i dep_list st)))
       = (map argv (spawned st)
          ++ map (fun dep => install_argv i (package dep) (version dep)) done)%list
    /\ same_but_logs st (snd (install_each i dep_list st))
    /\ ((fst (install_each i dep_list st) = Ok None /\ done = dep_list)
        \/ exists msg, fst (install_each i dep_list st) = Raise (OSError msg))
    /\ ((forall st' child, cannot_start i st' child = None) ->
        fst (install_each i dep_list st) = Ok None).
Proof.
  revert st. induction dep_list as [|dep rest IH]; intros st.
  - exists []. cbn. rewrite app_nil_r.
    repeat split; auto using same_but_logs_refl.
  - rewrite install_each_cons.
    destruct (install_module_run (package dep) (version dep) st) as (st1 & -> & Hs1 & Hl1).
    destruct (cannot_start i st _) as [msg|] eqn:Hstart; cbn.
    + exists [dep]. split; [now exists rest|]. split; [now rewrite Hs1, map_app|].
      split; [exact Hl1|]. split; [right; now exists msg|].
      intros Hall. now rewrite Hall in Hstart.
    + destruct (IH st1) as (done & Hp & Hs & Hl & Hr & Hall). exists (dep :: done).
      split; [now apply prefix_cons|].
      split; [rewrite Hs, Hs1, map_app; cbn; now rewrite <- app_assoc|].
      split; [eauto using same_but_logs_trans|].
      split; [|exact Hall].
      destruct Hr as [[Hok ->]|Hraise]; [left; now split|now right].
Qed.

Lemma install_operator_eq (package_name : string) (deps : list Dependency)
    (st : State) :
  dependencies st = Some deps ->
  DEPENDENCY_OT_install_dependencies_execute i package_name st
  = match install_each i (select_dependencies package_name deps) st with
    | (Ok (Some s), st1) => (Ok s, st1)
    | (Ok None, st1) =>
        match register_dependant_classes i st1 with
        | (Ok _, st2) => (Ok FINISHED, st2)
        | (Raise e, st2) => (Raise e, st2)
        end
    | (Raise e, st1) => (Raise e, st1)
    end.
Proof.
  intros Hdeps.
  unfold DEPENDENCY_OT_install_dependencies_execute, mbind at 1, M_bind at 1, get.
  rewrite Hdeps. unfold mbind at 1, M_bind at 1.
  destruct (install_each i (select_dependencies package_name deps) st)
    as [[[s|]|e] st1]; reflexivity.
Qed.

(** With a declared dependency list the install operator never answers
    [CANCELLED] and never shows a report, whatever the package manager
    does. *)
Lemma install_operator_run (package_name : string) (deps : list Dependency)
    (st : State) :
  dependencies st = Some deps ->
  let run := DEPENDENCY_OT_install_dependencies_execute i package_name st in
  fst run <> Ok CANCELLED
  /\ reports (snd run) = reports st
  /\ exists done,
      done `prefix_of` select_dependencies package_name deps
      /\ map argv (spawned (snd run))
         = (map argv (spawned st)
            ++ map (fun dep => install_argv i (package dep) (version dep)) done)%list
      /\ ((forall st' child, cannot_start i st' child = None) ->
          done = select_dependencies package_name deps).
Proof.
  intros Hdeps. cbv zeta. rewrite (install_operator_eq _ _ _ Hdeps).
  destruct (install_each_run (select_dependencies package_name deps) st)
    as (done & Hp & Hs & Hl & Hr & Hall).
  destruct (install_each i (select_dependencies package_name deps) st) as [r st1].
  cbn in Hs, Hl, Hr, Hall.
  destruct Hl as (_ & _ & _ & _ & Hrep & _).
  destruct Hr as [[-> ->]|[msg ->]].
  - pose proof (register_dependant_classes_frame st1) as (Hr2 & Hs2 & _).
    destruct (register_dependant_classes i st1) as [[[]|e] st2]; cbn in *;
      (split; [discriminate|]); (split; [congruence|]);
      exists (select_dependencies package_name deps);
      (split; [reflexivity|]); (split; [now rewrite Hs2|reflexivity]).
  - cbn. split; [discriminate|]. split; [exact Hrep|].
    exists done. split; [exact Hp|]. split; [exact Hs|].
    intros Hstart. specialize (Hall Hstart). discriminate.
Qed.

(** *** Importing *)




End ManagerFacts.




(** C2: on an interpreter whose package manager exits with status 1, the
    install operator with the add-on's dependency list spawns the package
    manager once, prints the failure on the console, shows no report and
    answers [FINISHED]: the failure never reaches the handler that would
    report it and cancel. *)
Theorem failed_install_goes_unreported :
  let child := {| argv := install_argv (interpreter 1) "debugpy" None;
                  env := Some (child_environ (interpreter 1)) |} in
  let st := fresh_state (Some [debugpy_dependency]) in
  let run := DEPENDENCY_OT_install_dependencies_execute (interpreter 1) EmptyString st in
  returncode (interpreter 1) st child = 1
  /\ fst run = Ok FINISHED
  /\ reports (snd run) = []
  /\ spawned (snd run) = [child]
  /\ console (snd run) = [LineExn (CalledProcessError 1 (argv child))].
Proof. cbv zeta. repeat split. Qed.




(** C7: installing [package_name] with a version constraint runs the
    package manager once, with the argument list
    [[sys.executable, "-m", "pip", "install", "--upgrade", package_name + constraint]]
    and with an environment that is the interpreter's own except that
    [PYTHONNOUSERSITE] is set to [1]; the call returns unless the child
    cannot be started, and then [OSError] leaves it.  The install
    operator does so for each dependency it selects, in order, with the
    dependency's package and version: for all of them when every child
    can be started, and up to the first that cannot otherwise. *)
Theorem install_module_invocation (i : Interpreter) (package_name constraint : string)
    (st : State) :
  constraint <> EmptyString ->
  (exists st' environ,
      let child :=
        {| argv := [sys_executable i; "-m"; "pip"; "install"; "--upgrade";
                    package_name +:+ constraint];
           env := Some environ |} in
      install_module i (Some package_name) (Some constraint) st
      = (match cannot_start i st child with
         | Some msg => Raise (OSError msg)
         | None => Ok tt
         end, st')
      /\ spawned st' = (spawned st ++ [child])%list
      /\ environ !! "PYTHONNOUSERSITE" = Some "1"
      /\ (forall k, k <> "PYTHONNOUSERSITE" -> environ !! k = os_environ i !! k))
  /\ (forall selected deps,
        dependencies st = Some deps ->
        exists done,
          done `prefix_of` select_dependencies selected deps
          /\ map argv (spawned (snd (DEPENDENCY_OT_install_dependencies_execute
                                       i selected st)))
             = (map argv (spawned st)
                ++ map (fun dep => [sys_executable i; "-m"; "pip"; "install"; "--upgrade";
                                    package dep +:+ or_else (version dep) EmptyString])
                       done)%list
          /\ ((forall st' child, cannot_start i st' child = None) ->
              done = select_dependencies selected deps)).
Proof.
  intros Hc. split.
  - destruct (install_module_run i package_name (Some constraint) st) as (st' & Hrun & Hs & _).
    exists st', (child_environ i). cbv zeta.
    assert (Hargv : install_argv i package_name (Some constraint)
                    = [sys_executable i; "-m"; "pip"; "install"; "--upgrade";
                       package_name +:+ constraint]).
    { unfold install_argv, or_else. destruct constraint; [contradiction|reflexivity]. }
    rewrite Hargv in Hrun, Hs.
    split; [exact Hrun|]. split; [exact Hs|].
    unfold child_environ. split; [apply lookup_insert_eq|].
    intros k Hk. now apply lookup_insert_ne.
  - intros selected deps Hdeps.
    destruct (install_operator_run i selected deps st Hdeps) as (_ & _ & Hdone).
    exact Hdone.
Qed.

Lemma install_module_invocation_witness :
  exists st' environ,
    install_module (interpreter 0) (Some "opencv-contrib-python") (Some "==1.2.3")
      (fresh_state None) = (Ok tt, st')
    /\ spawned st'
       = [{| argv := ["/opt/blender/4.2/python/bin/python3.11"; "-m"; "pip"; "install";
                      "--upgrade"; "opencv-contrib-python==1.2.3"];
             env := Some environ |}]
    /\ environ !! "PYTHONNOUSERSITE" = Some "1".
Proof.
  destruct (install_module_invocation (interpreter 0) "opencv-contrib-python" "==1.2.3"
              (fresh_state None)) as [(st' & environ & Hrun & Hs & He & _) _];
    [discriminate|].
  exists st', environ. repeat split; assumption.
Defined.

(** C10: while no dependency list is declared, [check_all_dependencies]
    answers false and the install and uninstall operators answer
    [CANCELLED]; none of them changes the state, so nothing is spawned,
    reported, registered or executed.  The same holds for
    [import_all_dependencies] and [update_dependencies_states], which
    return at once. *)
Theorem no_dependencies_declared (i : Interpreter) (package_name : string) (st : State) :
  dependencies st = None ->
  check_all_dependencies i st = (Ok false, st)
  /\ DEPENDENCY_OT_install_dependencies_execute i package_name st = (Ok CANCELLED, st)
  /\ DEPENDENCY_OT_uninstall_dependencies_execute i package_name st = (Ok CANCELLED, st)
  /\ import_all_dependencies i st = (Ok tt, st)
  /\ update_dependencies_states i st = (Ok tt, st).
Proof.
  intros Hnone.
  unfold check_all_dependencies, DEPENDENCY_OT_install_dependencies_execute,
    DEPENDENCY_OT_uninstall_dependencies_execute,
    import_all_dependencies, update_dependencies_states, mbind, M_bind, get.
  rewrite Hnone. now repeat split.
Qed.

Lemma no_dependencies_declared_witness :
  DEPENDENCY_OT_install_dependencies_execute (interpreter 0) "debugpy" (fresh_state None)
  = (Ok CANCELLED, fresh_state None)
  /\ spawned (fresh_state None) = [].
Proof.
  split; [|reflexivity].
  apply (no_dependencies_declared (interpreter 0) "debugpy" (fresh_state None)).
  reflexivity.
Defined.

(** * Further properties of the two files *)

Import Operators Bootstrap Panel Readings.

(** ** The dependency descriptor *)

Lemma or_else_again (x : option string) (d : string) :
  or_else (Some (or_else x d)) d = or_else x d.
Proof.
  unfold or_else. destruct x as [s|]; [|now destruct (truthy d)].
  destruct (truthy s) eqn:Hs; [now rewrite Hs|now destruct (truthy d)].
Qed.

Lemma or_else_nonempty (x : option string) (d : string) :
  d <> EmptyString -> or_else x d <> EmptyString.
Proof.
  unfold or_else. intros Hd. destruct x as [[|c s]|]; cbn; try assumption. discriminate.
Qed.

Lemma or_else_given (x d : string) : x <> EmptyString -> or_else (Some x) d = x.
Proof. unfold or_else. now destruct x. Qed.

(** X1: the defaults of a [Dependency] are resolved once.  Building a
    descriptor again from the fields of a built one gives the same
    descriptor; with a non-empty module name no resolved name is empty;
    and a non-empty package, alias or display name that was given is
    kept. *)
Theorem new_Dependency_resolved (m : string) (p a n v : option string) :
  let d := new_Dependency m p a n v in
  new_Dependency (module d) (Some (package d)) (Some (alias d))
    (Some (display_name d)) (version d) = d
  /\ (m <> EmptyString ->
      package d <> EmptyString /\ alias d <> EmptyString
      /\ display_name d <> EmptyString)
  /\ (forall x, x <> EmptyString ->
      (p = Some x -> package d = x)
      /\ (a = Some x -> alias d = x)
      /\ (n = Some x -> display_name d = x)).
Proof.
  cbv zeta. unfold new_Dependency. cbn [module package alias display_name version].
  split; [|split].
  - now rewrite !or_else_again.
  - intros Hm. auto using or_else_nonempty.
  - intros x Hx. repeat split; intros ->; now apply or_else_given.
Qed.

Lemma new_Dependency_resolved_witness :
  package (new_Dependency "cv2" (Some "opencv-contrib-python") None (Some EmptyString) None)
  = "opencv-contrib-python"
  /\ alias (new_Dependency "cv2" (Some "opencv-contrib-python") None (Some EmptyString) None)
     <> EmptyString.
Proof.
  pose proof (new_Dependency_resolved "cv2" (Some "opencv-contrib-python") None
                (Some EmptyString) None) as (_ & Hne & Hkept).
  cbv zeta in Hne, Hkept. split.
  - apply (Hkept "opencv-contrib-python"); [discriminate|reflexivity].
  - apply Hne. discriminate.
Defined.

(** ** Uninstalling *)

Section UninstallFacts.
Variable i : Interpreter.

(** What an uninstall prints: the failure of a child that was started
    and exited with a status other than 0. *)
Lemma uninstall_module_run (package_name : string) (st : State) :
  let child := {| argv := uninstall_argv i package_name;
                  env := Some (child_environ i) |} in
  exists st',
    uninstall_module i (Some package_name) st
    = (match cannot_start i st child with
       | Some msg => Raise (OSError msg)
       | None => Ok tt
       end, st')
    /\ spawned st' = (spawned st ++ [child])%list
    /\ console st'
       = (console st
          ++ match cannot_start i st child with
             | Some _ => []
             | None =>
                 if returncode i st child =? 0 then []
                 else [LineExn (CalledProcessError (returncode i st child)
                                  (uninstall_argv i package_name))]
             end)%list
    /\ same_but_logs st st'.
Proof.
  cbv zeta. unfold uninstall_module. run_monad. unfold uninstall_argv, child_environ.
  destruct (cannot_start i st _); cbn.
  - eexists. split; [reflexivity|]. cbn. rewrite app_nil_r. now repeat split.
  - destruct (returncode i st _ =? 0); cbn; eexists; (split; [reflexivity|]); cbn.
    + rewrite app_nil_r. now repeat split.
    + now repeat split.
Qed.

Lemma uninstall_each_cons (dep : Dependency) (rest : list Dependency) (st : State) :
  uninstall_each i (dep :: rest) st
  = match uninstall_module i (Some (package dep)) st with
    | (Ok _, st1) => uninstall_each i rest st1
    | (Raise e, st1) =>
        if is_install_error e
        then (report "ERROR" e ;; mret (Some CANCELLED)) st1
        else (Raise e, st1)
    end.
Proof.
  cbn [uninstall_each]. unfold mbind at 1, M_bind at 1, try_except.
  unfold mbind at 1, M_bind at 1.
  destruct (uninstall_module i (Some (package dep)) st) as [[[]|e] st1];
    cbn; [reflexivity|].
  now destruct (is_install_error e).
Qed.

(** The loop of the uninstall operator never leaves through its
    handler: it runs to its end, or a child that cannot be started ends
    it with an [OSError]. *)
Lemma uninstall_each_run (dep_list : list Dependency) (st : State) :
  exists done,
    done `prefix_of` dep_list
    /\ map argv (spawned (snd (uninstall_each i dep_list st)))
       = (map argv (spawned st)
          ++ map (fun dep => uninstall_argv i (package dep)) done)%list
    /\ same_but_logs st (snd (uninstall_each i dep_list st))
    /\ ((fst (uninstall_each i dep_list st) = Ok None /\ done = dep_list)
        \/ exists msg, fst (uninstall_each i dep_list st) = Raise (OSError msg))
    /\ ((forall st' child, cannot_start i st' child = None) ->
        fst (uninstall_each i dep_list st) = Ok None).
Proof.
  revert st. induction dep_list as [|dep rest IH]; intros st.
  - exists []. cbn. rewrite app_nil_r.
    repeat split; auto using same_but_logs_refl.
  - rewrite uninstall_each_cons.
    destruct (uninstall_module_run (package dep) st) as (st1 & -> & Hs1 & _ & Hl1).
    destruct (cannot_start i st _) as [msg|] eqn:Hstart; cbn.
    + exists [dep]. split; [now exists rest|]. split; [now rewrite Hs1, map_app|].
      split; [exact Hl1|]. split; [right; now exists msg|].
      intros Hall. now rewrite Hall in Hstart.
    + destruct (IH st1) as (done & Hp & Hs & Hl & Hr & Hall). exists (dep :: done).
      split; [now apply prefix_cons|].
      split; [rewrite Hs, Hs1, map_app; cbn; now rewrite <- app_assoc|].
      split; [eauto using same_but_logs_trans|].
      split; [|exact Hall].
      destruct Hr as [[Hok ->]|Hraise]; [left; now split|now right].
Qed.

Lemma without_cons (cls : string) (rest registered : list string) :
  without rest (List.filter (fun c => negb (String.eqb c cls)) registered)
  = without (cls :: rest) registered.
Proof.
  unfold without. induction registered as [|c cs IH]; [reflexivity|].
  cbn [List.filter existsb]. destruct (String.eqb c cls); cbn [negb orb]; [exact IH|].
  cbn [List.filter]. destruct (negb (existsb (String.eqb c) rest)); [now f_equal|exact IH].
Qed.

Lemma without_absent (cls : string) (rest registered : list string) :
  cls ∉ registered -> without (cls :: rest) registered = without rest registered.
Proof.
  intros Hc. unfold without. apply filter_ext_in. intros c Hin. cbn [existsb].
  destruct (String.eqb_spec c cls) as [->|_]; [|reflexivity].
  exfalso. apply Hc. now apply list_elem_of_In.
Qed.

Lemma unregister_each_run (classes : list string) (st : State) :
  exists st',
    unregister_each classes st = (Ok tt, st')
    /\ registered st' = without classes (registered st)
    /\ same_but_registered st st'.
Proof.
  revert st. induction classes as [|cls rest IH]; intros st.
  - exists st. split; [reflexivity|]. split; [|now repeat split].
    unfold without. cbn. induction (registered st) as [|c cs IHc]; [reflexivity|].
    cbn. now f_equal.
  - cbn [unregister_each]. run_monad.
    destruct (bool_decide (cls ∈ registered st)) eqn:Hin; cbn.
    + match goal with |- context [unregister_each rest ?s] =>
        destruct (IH s) as (st' & -> & Hreg & Hsame) end.
      exists st'. split; [reflexivity|]. cbn [registered] in Hreg.
      split; [now rewrite Hreg, without_cons|exact Hsame].
    + destruct (IH st) as (st' & -> & Hreg & Hsame).
      exists st'. split; [reflexivity|]. split; [|exact Hsame].
      rewrite Hreg. symmetry. apply without_absent.
      now apply bool_decide_eq_false in Hin.
Qed.

Lemma elem_of_without (classes registered : list string) (c : string) :
  c ∈ without classes registered <-> c ∈ registered /\ c ∉ classes.
Proof.
  unfold without. rewrite !list_elem_of_In, filter_In, negb_true_iff.
  split; intros [Hc Hn]; (split; [exact Hc|]).
  - intros Hin.
    assert (existsb (String.eqb c) classes = true); [|congruence].
    apply existsb_exists. exists c. split; [exact Hin|apply String.eqb_refl].
  - apply not_true_is_false. intros He. apply existsb_exists in He as (x & Hx & Heq).
    apply String.eqb_eq in Heq as ->. now apply Hn.
Qed.

Lemma uninstall_operator_eq (package_name : string) (deps : list Dependency)
    (st : State) :
  dependencies st = Some deps ->
  DEPENDENCY_OT_uninstall_dependencies_execute i package_name st
  = match uninstall_each i (select_dependencies package_name deps) st with
    | (Ok (Some s), st1) => (Ok s, st1)
    | (Ok None, st1) =>
        match unregister_dependant_classes i st1 with
        | (Ok _, st2) => (Ok FINISHED, st2)
        | (Raise e, st2) => (Raise e, st2)
        end
    | (Raise e, st1) => (Raise e, st1)
    end.
Proof.
  intros Hdeps.
  unfold DEPENDENCY_OT_uninstall_dependencies_execute, mbind at 1, M_bind at 1, get.
  rewrite Hdeps. unfold mbind at 1, M_bind at 1.
  destruct (uninstall_each i (select_dependencies package_name deps) st)
    as [[[s|]|e] st1]; reflexivity.
Qed.

End UninstallFacts.

Import MoreSamples.

(** X2: uninstalling [package_name] runs the package manager once, with
    the argument list
    [[sys.executable, "-m", "pip", "uninstall", "--yes", package_name]]
    and the interpreter's environment with [PYTHONNOUSERSITE] set to [1].
    For a given name the call raises only when the child cannot be
    started, and then with the [OSError] of [subprocess.run]; when the
    child exits with a status other than 0 the exception is printed and
    nothing else changes.  Without a name the call raises [ValueError]
    before anything is spawned. *)
Theorem uninstall_module_invocation (i : Interpreter) (package_name : string)
    (st : State) :
  (exists st' environ,
      let child := {| argv := [sys_executable i; "-m"; "pip"; "uninstall"; "--yes";
                               package_name];
                      env := Some environ |} in
      uninstall_module i (Some package_name) st
      = (match cannot_start i st child with
         | Some msg => Raise (OSError msg)
         | None => Ok tt
         end, st')
      /\ spawned st' = (spawned st ++ [child])%list
      /\ environ !! "PYTHONNOUSERSITE" = Some "1"
      /\ (forall k, k <> "PYTHONNOUSERSITE" -> environ !! k = os_environ i !! k)
      /\ console st'
         = (console st
            ++ match cannot_start i st child with
               | Some _ => []
               | None =>
                   if returncode i st child =? 0 then []
                   else [LineExn (CalledProcessError (returncode i st child)
                                    (argv child))]
               end)%list
      /\ same_but_logs st st')
  /\ uninstall_module i None st
     = (Raise (ValueError "Package name not especified"), st).
Proof.
  split; [|reflexivity].
  destruct (uninstall_module_run i package_name st) as (st' & Hrun & Hs & Hc & Hl).
  exists st', (child_environ i). cbv zeta.
  split; [exact Hrun|]. split; [exact Hs|].
  split; [apply lookup_insert_eq|].
  split; [intros k Hk; now apply lookup_insert_ne|].
  split; [exact Hc|exact Hl].
Qed.

Lemma uninstall_module_invocation_witness :
  (exists st' (environ : gmap string string),
    uninstall_module broken_interpreter (Some "debugpy") running_state = (Ok tt, st')
    /\ map argv (spawned st')
       = [["/opt/blender/4.2/python/bin/python3.11"; "-m"; "pip"; "uninstall"; "--yes";
           "debugpy"]]
    /\ environ !! "HOME" = Some "/home/ann")
  /\ fst (uninstall_module lost_interpreter (Some "debugpy") running_state)
     = Raise (OSError "No such file or directory").
Proof.
  split.
  - destruct (uninstall_module_invocation broken_interpreter "debugpy" running_state)
      as [(st' & environ & Hrun & Hs & _ & Hk & _) _].
    exists st', environ. split; [exact Hrun|]. split; [now rewrite Hs|].
    rewrite Hk; [reflexivity|discriminate].
  - destruct (uninstall_module_invocation lost_interpreter "debugpy" running_state)
      as [(st' & environ & Hrun & _) _].
    now rewrite Hrun.
Defined.

(** X3: with a declared dependency list the uninstall operator shows no
    report and never answers [CANCELLED], whatever the package manager
    answers.  It runs one uninstall per selected dependency, in order.
    When every child can be started it answers [FINISHED] after all of
    them, and then none of the dependant classes is registered while
    every other registered class still is.  A child that cannot be
    started ends the run with its [OSError]: no later uninstall is run
    and the registered classes stay as they were. *)
Theorem uninstall_operator_run (i : Interpreter) (package_name : string)
    (deps : list Dependency) (st : State) :
  dependencies st = Some deps ->
  let run := DEPENDENCY_OT_uninstall_dependencies_execute i package_name st in
  exists done,
    done `prefix_of` select_dependencies package_name deps
    /\ map argv (spawned (snd run))
       = (map argv (spawned st)
          ++ map (fun dep => [sys_executable i; "-m"; "pip"; "uninstall"; "--yes";
                              package dep]) done)%list
    /\ reports (snd run) = reports st
    /\ ((fst run = Ok FINISHED
         /\ done = select_dependencies package_name deps
         /\ (forall c, (c ∈ registered (snd run))
                       <-> (c ∈ registered st) /\ (c ∉ dependant_classes i)))
        \/ ((exists msg, fst run = Raise (OSError msg))
            /\ registered (snd run) = registered st))
    /\ ((forall st' child, cannot_start i st' child = None) -> fst run = Ok FINISHED).
Proof.
  intros Hdeps. cbv zeta. rewrite (uninstall_operator_eq _ _ _ _ Hdeps).
  destruct (uninstall_each_run i (select_dependencies package_name deps) st)
    as (done & Hp & Hs & Hl & Hr & Hall).
  destruct (uninstall_each i (select_dependencies package_name deps) st) as [r st1].
  cbn in Hs, Hl, Hr, Hall.
  destruct Hl as (_ & _ & _ & _ & Hrep & Hreg1).
  exists done. split; [exact Hp|].
  destruct Hr as [[-> ->]|[msg ->]].
  - unfold unregister_dependant_classes.
    destruct (unregister_each_run (dependant_classes i) st1) as (st' & -> & Hreg & Hsame).
    destruct Hsame as (_ & _ & _ & _ & Hsp & _ & Hr).
    cbn. split; [now rewrite Hsp|]. split; [congruence|].
    split; [|reflexivity]. left. split; [reflexivity|]. split; [reflexivity|].
    intros c. rewrite Hreg, Hreg1. apply elem_of_without.
  - cbn. split; [exact Hs|]. split; [exact Hrep|].
    split; [right; split; [now exists msg|exact Hreg1]|].
    intros Hstart. specialize (Hall Hstart). discriminate.
Qed.

Lemma uninstall_operator_run_witness :
  fst (DEPENDENCY_OT_uninstall_dependencies_execute broken_interpreter "debugpy"
         running_state) = Ok FINISHED
  /\ dependencies running_state = Some [debugpy_dependency; pinned_dependency].
Proof.
  split; [|reflexivity].
  destruct (uninstall_operator_run broken_interpreter "debugpy"
              [debugpy_dependency; pinned_dependency] running_state)
    as (done & _ & _ & _ & _ & Hfin); [reflexivity|].
  apply Hfin. reflexivity.
Defined.

(** ** Registering the dependant classes *)

Section RegisterFacts.
Variable i : Interpreter.

Lemma with_missing_keeps (classes registered : list string) (c : string) :
  c ∈ registered -> c ∈ with_missing classes registered.
Proof.
  unfold with_missing. revert registered.
  induction classes as [|cls rest IH]; intros registered Hc; [exact Hc|].
  cbn [fold_left]. apply IH. case_bool_decide; [exact Hc|].
  apply elem_of_app. now left.
Qed.

Lemma with_missing_adds (classes registered : list string) (c : string) :
  c ∈ classes -> c ∈ with_missing classes registered.
Proof.
  revert registered. induction classes as [|cls rest IH]; intros registered Hc.
  - now apply elem_of_nil in Hc.
  - apply elem_of_cons in Hc as [->|Hc].
    + change (with_missing (cls :: rest) registered)
        with (with_missing rest
                (if bool_decide (cls ∈ registered) then registered
                 else (registered ++ [cls])%list)).
      apply with_missing_keeps. case_bool_decide; [assumption|].
      apply elem_of_app. right. now apply list_elem_of_singleton.
    + now apply IH.
Qed.

Lemma with_missing_only (classes registered : list string) (c : string) :
  c ∈ with_missing classes registered -> c ∈ registered \/ c ∈ classes.
Proof.
  unfold with_missing. revert registered.
  induction classes as [|cls rest IH]; intros registered Hc; [now left|].
  cbn [fold_left] in Hc. apply IH in Hc as [Hc|Hc].
  - case_bool_decide; [now left|].
    apply elem_of_app in Hc as [Hc|Hc]; [now left|].
    apply list_elem_of_singleton in Hc as ->. right. now left.
  - right. now right.
Qed.

Lemma with_missing_NoDup (classes registered : list string) :
  NoDup registered -> NoDup (with_missing classes registered).
Proof.
  unfold with_missing. revert registered.
  induction classes as [|cls rest IH]; intros registered Hnd; [exact Hnd|].
  cbn [fold_left]. apply IH. case_bool_decide; [exact Hnd|].
  apply NoDup_app. split; [exact Hnd|]. split; [|apply NoDup_singleton].
  intros x Hx Hx'. now apply list_elem_of_singleton in Hx' as ->.
Qed.

Lemma register_each_spec (classes : list string) (st : State) :
  exists st',
    register_each classes st = (Ok tt, st')
    /\ registered st' = with_missing classes (registered st)
    /\ same_but_registered st st'.
Proof.
  revert st. induction classes as [|cls rest IH]; intros st.
  - exists st. now repeat split.
  - cbn [register_each]. run_monad. unfold with_missing. cbn [fold_left].
    destruct (bool_decide (cls ∈ registered st)); cbn.
    + apply IH.
    + match goal with |- context [register_each rest ?s] =>
        destruct (IH s) as (st' & -> & Hreg & Hsame) end.
      exists st'. split; [reflexivity|]. split; [exact Hreg|exact Hsame].
Qed.

End RegisterFacts.



(** X5: [register_dependant_classes] registers every dependant class
    when the check of the dependencies answers true, without registering
    a class twice: classes that were registered stay registered, nothing
    but dependant classes is added, a list without duplicates stays
    without duplicates, and nothing else changes after the check.  When
    the check answers false no class is registered, and when the check
    raises, the exception leaves the call and no class is registered.
    With module names without a dot the check changes nothing and does
    not raise. *)
Theorem register_dependant_classes_spec (i : Interpreter) (st st1 : State) :
  (check_all_dependencies i st = (Ok true, st1) ->
   exists st',
     register_dependant_classes i st = (Ok tt, st')
     /\ same_but_registered st1 st'
     /\ (forall c, c ∈ dependant_classes i -> c ∈ registered st')
     /\ (forall c, c ∈ registered st -> c ∈ registered st')
     /\ (forall c, c ∈ registered st' -> c ∈ registered st \/ c ∈ dependant_classes i)
     /\ (NoDup (registered st) -> NoDup (registered st')))
  /\ (check_all_dependencies i st = (Ok false, st1) ->
      register_dependant_classes i st = (Ok tt, st1)
      /\ registered st1 = registered st)
  /\ (forall e, check_all_dependencies i st = (Raise e, st1) ->
      register_dependant_classes i st = (Raise e, st1)
      /\ registered st1 = registered st)
  /\ (forall deps,
        dependencies st = Some deps ->
        Forall (fun dep => top_level (module dep) = true) deps ->
        exists b, check_all_dependencies i st = (Ok b, st)).
Proof.
  pose proof (check_all_dependencies_frame i st) as (_ & _ & _ & _ & _ & Hreg1).
  unfold register_dependant_classes, mbind, M_bind.
  split; [|split; [|split]].
  - intros Hrun. rewrite Hrun in Hreg1 |- *. cbn [negb snd] in *.
    destruct (register_each_spec (dependant_classes i) st1) as (st' & -> & Hreg & Hsame).
    exists st'. split; [reflexivity|]. split; [exact Hsame|]. rewrite Hreg, Hreg1.
    repeat split.
    + intros c. apply with_missing_adds.
    + intros c. apply with_missing_keeps.
    + intros c. apply with_missing_only.
    + apply with_missing_NoDup.
  - intros Hrun. rewrite Hrun in Hreg1 |- *. now split.
  - intros e Hrun. rewrite Hrun in Hreg1 |- *. now split.
  - intros deps Hdeps Htop.
    destruct (check_all_dependencies_top i deps st Hdeps Htop) as (b & Hrun & _).
    now exists b.
Qed.

Lemma register_dependant_classes_spec_witness :
  (exists st',
      register_dependant_classes (interpreter 0)
        (fresh_state (Some [debugpy_dependency])) = (Ok tt, st')
      /\ ("DebuggerCheck" ∈ registered st'))
  /\ register_dependant_classes (interpreter 0)
       (fresh_state (Some [pinned_dependency]))
     = (Ok tt, fresh_state (Some [pinned_dependency]))
  /\ fst (register_dependant_classes (interpreter 0)
            (fresh_state (Some [protobuf_dependency])))
     = Raise (ModuleNotFoundError "google").
Proof.
  split; [|split].
  - destruct (proj1 (register_dependant_classes_spec (interpreter 0)
                       (fresh_state (Some [debugpy_dependency]))
                       (fresh_state (Some [debugpy_dependency]))))
      as (st' & Hrun & _ & Hall & _); [reflexivity|].
    exists st'. split; [exact Hrun|]. apply Hall. apply list_elem_of_In. cbn. tauto.
  - apply (proj1 (proj2 (register_dependant_classes_spec (interpreter 0)
                           (fresh_state (Some [pinned_dependency]))
                           (fresh_state (Some [pinned_dependency]))))).
    reflexivity.
  - destruct (proj1 (proj2 (proj2 (register_dependant_classes_spec (interpreter 0)
                 (fresh_state (Some [protobuf_dependency]))
                 (fresh_state (Some [protobuf_dependency])))))
                 (ModuleNotFoundError "google")) as [-> _]; reflexivity.
Defined.

(** ** Importing *)

Section ImportFacts.
Variable i : Interpreter.




End ImportFacts.





(** ** The poller and its timer *)

Section TimerFacts.
Variable prefs : Preferences.

Lemma after_events_timer (evs : list (string * bool)) (op : DebuggerCheck) :
  timer (after_events prefs evs op) = timer op
  /\ modal_limit (after_events prefs evs op) = modal_limit op
  /\ count (after_events prefs evs op) = count op + Z.of_nat (length evs).
Proof.
  unfold after_events. revert op. induction evs as [|ev evs IH]; intros op.
  - cbn. repeat split. lia.
  - cbn [fold_left length]. destruct (IH (snd (modal op (fst ev) prefs (snd ev))))
      as (Ht & Hl & Hc).
    rewrite Ht, Hl, Hc, modal_count. cbn [counted timer modal_limit count].
    repeat split. lia.
Qed.

Lemma filter_fresh (t : nat) (ts : list nat) :
  Forall (fun u => (u < t)%nat) ts ->
  List.filter (fun u => negb (Nat.eqb u t)) ts = ts.
Proof.
  induction 1 as [|u us Hu _ IH]; [reflexivity|].
  cbn [List.filter]. destruct (Nat.eqb_spec u t) as [->|_]; [lia|].
  cbn [negb]. now rewrite IH.
Qed.


End TimerFacts.

(** X8: cancelling releases the timer that [execute] took.  On a window
    manager whose timer handles are all older than the next handle,
    [execute] starts the operator with counter 0, the limit [timeout * 60]
    and one new timer; after any events delivered to [modal], [cancel]
    leaves the window manager with exactly the timers it had before
    [execute], and the handles stay older than the next one. *)
Theorem cancel_releases_timer (self : DebuggerCheck) (prefs : Preferences)
    (wm : WindowManager) (evs : list (string * bool)) :
  timers_fresh wm ->
  let started := execute self prefs wm in
  let op := snd (fst started) in
  let wm1 := snd started in
  let wm2 := snd (cancel (after_events prefs evs op) wm1) in
  fst (fst started) = RUNNING_MODAL
  /\ count op = 0 /\ modal_limit op = timeout prefs * 60
  /\ timers wm1 = next_timer wm :: timers wm
  /\ timers_fresh wm1
  /\ timers wm2 = timers wm
  /\ timers_fresh wm2.
Proof.
  intros Hfresh. cbv zeta. unfold execute, event_timer_add, cancel. cbn [fst snd].
  destruct (after_events_timer prefs evs
              {| timer := Some (next_timer wm); count := 0;
                 modal_limit := timeout prefs * 60 |}) as (-> & _ & _).
  cbn [timer event_timer_remove timers next_timer count modal_limit List.filter].
  rewrite Nat.eqb_refl. cbn [negb]. rewrite (filter_fresh _ _ Hfresh).
  assert (Hfresh' : Forall (fun t => (t < S (next_timer wm))%nat) (timers wm)).
  { eapply Forall_impl; [exact Hfresh|]. cbn. intros t Ht. lia. }
  repeat split; try assumption.
  unfold timers_fresh. cbn. constructor; [lia|exact Hfresh'].
Qed.

Lemma cancel_releases_timer_witness :
  let wm := {| timers := [3; 1]%nat; next_timer := 4 |} in
  let started := execute DebuggerCheck_new default_preferences wm in
  timers (snd started) = [4; 3; 1]%nat
  /\ timers (snd (cancel (after_events default_preferences
                            [("TIMER", false); ("MOUSEMOVE", false)]
                            (snd (fst started))) (snd started)))
     = [3; 1]%nat.
Proof.
  cbv zeta.
  pose proof (cancel_releases_timer DebuggerCheck_new default_preferences
                {| timers := [3; 1]%nat; next_timer := 4 |}
                [("TIMER", false); ("MOUSEMOVE", false)]) as H.
  cbv zeta in H.
  destruct H as (_ & _ & _ & Hadd & _ & Hdone & _).
  - unfold timers_fresh. cbn. repeat constructor.
  - split; [exact Hadd|exact Hdone].
Defined.





(** ** The resolver: exceptions and the order of the commands *)

Section ResolverRuns.
Variable h : Host.

Lemma commands_of_app (a b : list Event) :
  commands_of (a ++ b) = (commands_of a ++ commands_of b)%list.
Proof. unfold commands_of. apply omap_app. Qed.

Lemma commands_of_events_of (c : Command) : commands_of (events_of h c) = [c].
Proof. unfold events_of. now destruct (popen h c). Qed.

Lemma commands_of_all (cs : list Command) :
  commands_of (flat_map (events_of h) cs) = cs.
Proof.
  induction cs as [|c cs IH]; [reflexivity|].
  cbn [flat_map]. now rewrite commands_of_app, commands_of_events_of, IH.
Qed.

Lemma lookup_raised (places : string -> list string) (c : Command) (e : exn) :
  lookup h places c = Raise e ->
  e = UnicodeDecodeError /\ popen h c = PopenStdout NotUtf8.
Proof.
  unfold lookup. destruct (popen h c) as [e'|[text|]]; try discriminate.
  now intros [= <-].
Qed.

(** Block 4 spawns a front part of its commands, each once and in
    order, and raises only when the last one it spawned printed bytes
    that are not UTF-8. *)
Lemma system_probe_commands (cs : list Command) :
  commands_of (snd (system_probe h cs)) `prefix_of` cs
  /\ (forall e, fst (system_probe h cs) = Raise e ->
        e = UnicodeDecodeError
        /\ exists c, c ∈ cs /\ popen h c = PopenStdout NotUtf8
                     /\ last (commands_of (snd (system_probe h cs))) = Some c).
Proof.
  induction cs as [|c cs [IHp IHe]].
  - cbn. split; [reflexivity|discriminate].
  - destruct (lookup h (python_places h) c) as [[dir|]|e] eqn:E.
    + rewrite (system_probe_found _ _ _ _ E). cbn. split; [|discriminate].
      now exists cs.
    + rewrite (system_probe_missed _ _ _ E). cbn [fst snd].
      rewrite commands_of_app, commands_of_events_of. split.
      * now apply prefix_cons.
      * intros e He. destruct (IHe e He) as (-> & c' & Hin & Hout & Hlast).
        split; [reflexivity|]. exists c'. split; [now right|]. split; [exact Hout|].
        cbn [app]. destruct (commands_of (snd (system_probe h cs))); [discriminate|].
        exact Hlast.
    + rewrite (system_probe_raised _ _ _ _ E). cbn. split; [now exists cs|].
      intros e' [= <-]. destruct (lookup_raised _ _ _ E) as [-> Hout].
      split; [reflexivity|]. exists c. split; [now left|]. now split.
Qed.

(** What a run that returns a value returned. *)
Lemma check_for_debugpy_value (p : string) :
  fst (check_for_debugpy h) = Ok p ->
  p = NOT_FOUND_MESSAGE \/ contains_package h p = true.
Proof.
  rewrite check_for_debugpy_places.
  destruct (first_match h (platlib_places h)) as [d|] eqn:H1.
  { intros [= <-]. right. exact (first_match_contains _ _ _ H1). }
  destruct (first_match h (sys_path_places h)) as [d|] eqn:H2.
  { intros [= <-]. right. exact (first_match_contains _ _ _ H2). }
  destruct (lookup h (pip_places h) pip_show) as [[d|]|e] eqn:H3; [| |discriminate].
  { intros [= <-]. right. exact (lookup_found_contains _ _ _ _ H3). }
  pose proof (system_probe_cases h checks) as H4.
  destruct (system_probe h checks) as [[[d|]|e] evs4]; [| |discriminate].
  - intros [= <-]. right. exact H4.
  - intros [= <-]. now left.
Qed.

End ResolverRuns.

(** The commands of a run and the exceptions it can raise. *)
Lemma check_for_debugpy_commands_aux (h : Host) :
  commands_of (snd (check_for_debugpy h)) `prefix_of` (pip_show :: checks)
  /\ (forall e, fst (check_for_debugpy h) = Raise e ->
        e = UnicodeDecodeError
        /\ exists c, c ∈ pip_show :: checks
                     /\ popen h c = PopenStdout NotUtf8
                     /\ last (commands_of (snd (check_for_debugpy h))) = Some c).
Proof.
  rewrite check_for_debugpy_places.
  destruct (first_match h (platlib_places h)) as [d|].
  { cbn. split; [apply prefix_nil|discriminate]. }
  destruct (first_match h (sys_path_places h)) as [d|].
  { cbn. split; [apply prefix_nil|discriminate]. }
  destruct (lookup h (pip_places h) pip_show) as [[d|]|e] eqn:H3.
  - cbn [fst snd]. rewrite commands_of_events_of. split; [now exists checks|discriminate].
  - destruct (system_probe_commands h checks) as [Hp He].
    destruct (system_probe h checks) as [[[d|]|e] evs4]; cbn [fst snd] in *;
      rewrite commands_of_app, commands_of_events_of; (split; [now apply prefix_cons|]);
      try discriminate.
    intros e' [= <-]. destruct (He e eq_refl) as (-> & c & Hin & Hout & Hlast).
    split; [reflexivity|]. exists c. split; [now right|]. split; [exact Hout|].
    cbn [app]. destruct (commands_of evs4); [discriminate|]. exact Hlast.
  - cbn [fst snd]. rewrite commands_of_events_of. split; [now exists checks|].
    intros e' [= <-]. destruct (lookup_raised _ _ _ _ H3) as [-> Hout].
    split; [reflexivity|]. exists pip_show. split; [now left|]. now split.
Qed.


(** X11: [check_for_debugpy] spawns its commands in the fixed order
    [pip show debugpy], [where], [whereis], [which], each at most once and
    none after one that was left out; and the only exception it can raise
    is [UnicodeDecodeError], raised when the command it spawned last
    printed bytes that are not UTF-8.  An exception of [subprocess.Popen]
    itself never leaves the function. *)
Theorem check_for_debugpy_commands (h : Host) :
  commands_of (snd (check_for_debugpy h)) `prefix_of` (pip_show :: checks)
  /\ (forall e, fst (check_for_debugpy h) = Raise e ->
        e = UnicodeDecodeError
        /\ exists c, c ∈ pip_show :: checks
                     /\ popen h c = PopenStdout NotUtf8
                     /\ last (commands_of (snd (check_for_debugpy h))) = Some c).
Proof. apply check_for_debugpy_commands_aux. Qed.

Lemma check_for_debugpy_commands_witness :
  exists c,
    popen undecodable_host c = PopenStdout NotUtf8
    /\ last (commands_of (snd (check_for_debugpy undecodable_host))) = Some c.
Proof.
  destruct (proj2 (check_for_debugpy_commands undecodable_host) UnicodeDecodeError)
    as (_ & c & _ & Hout & Hlast); [reflexivity|].
  exists c. now split.
Defined.

(** X12: when every strategy misses, a run returns the sentinel after it
    spawned all four commands, each once and in the fixed order. *)
Theorem check_for_debugpy_exhausted (h : Host) :
  every_strategy_misses h ->
  fst (check_for_debugpy h) = Ok NOT_FOUND_MESSAGE
  /\ commands_of (snd (check_for_debugpy h))
     = [pip_show; CommandArgs ["where"; "python"]; CommandArgs ["whereis"; "python"];
        CommandArgs ["which"; "python"]].
Proof.
  intros Hmiss. rewrite (check_for_debugpy_not_found h Hmiss). cbn [fst snd].
  split; [reflexivity|].
  now rewrite commands_of_app, commands_of_events_of, commands_of_all.
Qed.

Lemma check_for_debugpy_exhausted_witness :
  fst (check_for_debugpy bare_host) = Ok NOT_FOUND_MESSAGE.
Proof.
  apply (check_for_debugpy_exhausted bare_host).
  repeat split; repeat constructor.
Defined.

(** ** The operators of the add-on *)

(** X13: [DebuggerPathUpdate.execute] never answers [CANCELLED] and
    never shows a report: the exception its handler waits for cannot come
    out of the resolver.  When the resolver returns a value the operator
    answers [FINISHED] and stores the value as the path preference,
    leaving timeout and port alone; when the resolver raises, the
    exception leaves the operator and the preferences are as before. *)
Theorem DebuggerPathUpdate_never_cancels (h : Host) (prefs : Preferences) :
  let run := DebuggerPathUpdate_execute h prefs in
  let status := fst (fst (fst run)) in
  let prefs' := snd (fst (fst run)) in
  status <> Ok CANCELLED
  /\ snd (fst run) = []
  /\ snd run = snd (check_for_debugpy h)
  /\ (forall found, fst (check_for_debugpy h) = Ok found ->
        status = Ok FINISHED
        /\ prefs' = {| path := found; timeout := timeout prefs; port := port prefs |})
  /\ (forall e, fst (check_for_debugpy h) = Raise e ->
        status = Raise e /\ prefs' = prefs).
Proof.
  cbv zeta. unfold DebuggerPathUpdate_execute.
  pose proof (proj2 (check_for_debugpy_commands_aux h)) as Hexn.
  destruct (check_for_debugpy h) as [[found|e] evs]; cbn [fst snd] in *.
  - split; [discriminate|]. split; [reflexivity|]. split; [reflexivity|].
    split; [|discriminate]. intros found' [= <-]. now split.
  - destruct (Hexn e eq_refl) as [-> _]. cbn [fst snd].
    split; [discriminate|]. split; [reflexivity|]. split; [reflexivity|].
    split; [discriminate|]. intros e' [= <-]. now split.
Qed.

Lemma DebuggerPathUpdate_never_cancels_witness :
  fst (fst (fst (DebuggerPathUpdate_execute sys_path_host default_preferences)))
  = Ok FINISHED
  /\ snd (fst (fst (DebuggerPathUpdate_execute sys_path_host default_preferences)))
     = venv_preferences
  /\ fst (fst (fst (DebuggerPathUpdate_execute undecodable_host default_preferences)))
     = Raise UnicodeDecodeError.
Proof.
  pose proof (DebuggerPathUpdate_never_cancels sys_path_host default_preferences)
    as (_ & _ & _ & Hfound & _).
  pose proof (DebuggerPathUpdate_never_cancels undecodable_host default_preferences)
    as (_ & _ & _ & _ & Hraise).
  cbv zeta in Hfound, Hraise.
  destruct (Hfound "/home/ann/venv/site-packages" eq_refl) as [Hs Hp].
  destruct (Hraise UnicodeDecodeError eq_refl) as [He _].
  split; [exact Hs|]. split; [exact Hp|exact He].
Defined.

Section ServerFacts.
Variable s : Server.

Lemma ensure_on_path_spec (p : string) (ss : Session) :
  (p ∈ search_path (ensure_on_path p ss))
  /\ (p ∈ search_path ss -> ensure_on_path p ss = ss)
  /\ (p ∉ search_path ss ->
      search_path (ensure_on_path p ss) = (search_path ss ++ [p])%list)
  /\ (NoDup (search_path ss) -> NoDup (search_path (ensure_on_path p ss))).
Proof.
  unfold ensure_on_path.
  destruct (existsb (String.eqb p) (search_path ss)) eqn:E.
  - apply existsb_exists in E as (x & Hx & Heq). apply String.eqb_eq in Heq as <-.
    apply (proj2 (list_elem_of_In _ _)) in Hx.
    split; [exact Hx|]. split; [reflexivity|]. split; [contradiction|auto].
  - assert (Hn : p ∉ search_path ss).
    { intros Hin. apply (proj1 (list_elem_of_In _ _)) in Hin.
      assert (existsb (String.eqb p) (search_path ss) = true); [|congruence].
      apply existsb_exists. exists p. split; [exact Hin|apply String.eqb_refl]. }
    cbn [search_path]. split; [apply elem_of_app; right; now left|].
    split; [contradiction|]. split; [reflexivity|].
    intros Hnd. apply NoDup_app. split; [exact Hnd|]. split; [|apply NoDup_singleton].
    intros x Hx Hx'. now apply list_elem_of_singleton in Hx' as ->.
Qed.

End ServerFacts.

(** X14: [DebugServerStart.execute] refuses to start when the path
    preference is the sentinel or when no [debugpy] exists under it: it
    answers [CANCELLED], shows exactly one error, and neither touches
    [sys.path] nor imports, listens, waits or starts a poller. *)
Theorem DebugServerStart_refuses (s : Server) (waitForClient : bool)
    (prefs : Preferences) (ss : Session) :
  path prefs = NOT_FOUND_MESSAGE
  \/ path_exists (disk s) (abspath s (join (disk s) (path prefs) "debugpy")) = false ->
  let run := DebugServerStart_execute s waitForClient prefs ss in
  fst run = Ok CANCELLED
  /\ (exists notice, notices (snd run) = (notices ss ++ [("ERROR", notice)])%list)
  /\ search_path (snd run) = search_path ss
  /\ debugpy_bound (snd run) = debugpy_bound ss
  /\ listening (snd run) = listening ss
  /\ waits (snd run) = waits ss
  /\ window_manager (snd run) = window_manager ss
  /\ pollers (snd run) = pollers ss.
Proof.
  intros Hrefuse. cbv zeta. unfold DebugServerStart_execute.
  destruct (String.eqb_spec (path prefs) NOT_FOUND_MESSAGE) as [Heq|Hne].
  - cbn. repeat split. now eexists.
  - destruct Hrefuse as [Heq|Hmissing]; [contradiction|].
    rewrite Hmissing. cbn. repeat split. now eexists.
Qed.

Lemma DebugServerStart_refuses_witness :
  fst (DebugServerStart_execute venv_server true default_preferences idle_session)
  = Ok CANCELLED
  /\ pollers (snd (DebugServerStart_execute venv_server true default_preferences
                     idle_session)) = [].
Proof.
  pose proof (DebugServerStart_refuses venv_server true default_preferences idle_session)
    as H.
  cbv zeta in H. destruct H as (Hs & _ & _ & _ & _ & _ & _ & Hp); [now left|].
  split; [exact Hs|exact Hp].
Defined.

(** X15: when the path preference is not the sentinel, [debugpy] exists
    under it and the import succeeds, [DebugServerStart.execute] puts the
    path on [sys.path], appended at the end only if it was missing (so a
    search path without duplicates stays without duplicates), and calls
    [debugpy.listen]: the address [localhost:port] is added to the
    addresses listened on, or the failure is printed once.  Unless it is
    asked to wait for the client and that wait raises, it then answers
    [FINISHED], whether or not [debugpy.listen] raised, and exactly one
    new poller runs, with counter 0, the limit [timeout * 60] and a
    timer of its own.  When the wait raises, as it does when nothing is
    listened on, the exception leaves the operator and no poller and no
    timer is started. *)
Theorem DebugServerStart_starts (s : Server) (waitForClient : bool)
    (prefs : Preferences) (ss : Session) :
  path prefs <> NOT_FOUND_MESSAGE ->
  path_exists (disk s) (abspath s (join (disk s) (path prefs) "debugpy")) = true ->
  import_raises s (search_path (ensure_on_path (path prefs) ss)) = None ->
  let run := DebugServerStart_execute s waitForClient prefs ss in
  let address := ("localhost", port prefs) in
  let listened :=
    match listen_raises s (listening ss) address with
    | None => (listening ss ++ [address])%list
    | Some _ => listening ss
    end in
  (path prefs ∈ search_path (snd run))
  /\ (path prefs ∈ search_path ss -> search_path (snd run) = search_path ss)
  /\ (path prefs ∉ search_path ss ->
      search_path (snd run) = (search_path ss ++ [path prefs])%list)
  /\ (NoDup (search_path ss) -> NoDup (search_path (snd run)))
  /\ debugpy_bound (snd run) = true
  /\ listening (snd run) = listened
  /\ already_running (snd run)
     = match listen_raises s (listening ss) address with
       | None => already_running ss
       | Some _ => S (already_running ss)
       end
  /\ match (if waitForClient then wait_raises s listened else None) with
     | None =>
         fst run = Ok FINISHED
         /\ waits (snd run) = (if waitForClient then S (waits ss) else waits ss)
         /\ pollers (snd run)
            = (pollers ss
               ++ [{| timer := Some (next_timer (window_manager ss)); count := 0;
                      modal_limit := timeout prefs * 60 |}])%list
         /\ timers (window_manager (snd run))
            = next_timer (window_manager ss) :: timers (window_manager ss)
     | Some e =>
         fst run = Raise e
         /\ waits (snd run) = waits ss
         /\ pollers (snd run) = pollers ss
         /\ window_manager (snd run) = window_manager ss
     end.
Proof.
  intros Hne Hexists Himport. cbv zeta. unfold DebugServerStart_execute.
  destruct (String.eqb_spec (path prefs) NOT_FOUND_MESSAGE) as [Heq|_]; [contradiction|].
  rewrite Hexists, Himport. cbn [negb].
  destruct (ensure_on_path_spec (path prefs) ss) as (Hin & Hsame & Hadd & Hnd).
  assert (Hframe : listening (ensure_on_path (path prefs) ss) = listening ss
                   /\ already_running (ensure_on_path (path prefs) ss) = already_running ss
                   /\ waits (ensure_on_path (path prefs) ss) = waits ss
                   /\ window_manager (ensure_on_path (path prefs) ss) = window_manager ss
                   /\ pollers (ensure_on_path (path prefs) ss) = pollers ss).
  { unfold ensure_on_path. now destruct (existsb _ _). }
  destruct Hframe as (Hl & Ha & Hw & Hwm & Hp).
  unfold check_for_debugger, maybe_wait, try_listen, notify, execute, event_timer_add.
  cbn [search_path debugpy_bound listening notices already_running waits
       window_manager pollers fst snd].
  rewrite Hl.
  destruct (listen_raises s (listening ss) ("localhost", port prefs));
    destruct waitForClient;
    cbn [search_path debugpy_bound listening notices already_running waits
         window_manager pollers fst snd timers next_timer];
    try match goal with |- context [wait_raises s ?l] => destruct (wait_raises s l) end;
    cbn [search_path debugpy_bound listening notices already_running waits
         window_manager pollers fst snd timers next_timer];
    rewrite ?Hwm, ?Hp, ?Ha, ?Hw, ?Hl;
    (split; [exact Hin|]);
    (split; [intros H; now rewrite Hsame|]); (split; [exact Hadd|]);
    (split; [exact Hnd|]); now repeat split.
Qed.

Lemma DebugServerStart_starts_witness :
  let first := DebugServerStart_execute venv_server false venv_preferences idle_session in
  let second := DebugServerStart_execute venv_server false venv_preferences (snd first) in
  let busy := DebugServerStart_execute busy_server true venv_preferences idle_session in
  fst first = Ok FINISHED
  /\ search_path (snd first)
     = ["/opt/blender/4.2/scripts/modules"; "/home/ann/venv/site-packages"]
  /\ fst second = Ok FINISHED
  /\ search_path (snd second) = search_path (snd first)
  /\ fst busy = Raise (RuntimeError "listen() or connect() must be called first")
  /\ pollers (snd busy) = [].
Proof.
  cbv zeta.
  pose proof (DebugServerStart_starts venv_server false venv_preferences idle_session)
    as H1.
  pose proof (DebugServerStart_starts venv_server false venv_preferences
                (snd (DebugServerStart_execute venv_server false venv_preferences
                        idle_session))) as H2.
  pose proof (DebugServerStart_starts busy_server true venv_preferences idle_session)
    as H3.
  cbv zeta in H1, H2, H3.
  destruct H1 as (_ & _ & Hadd & _ & _ & _ & _ & Hs1 & _);
    [discriminate|reflexivity|reflexivity|].
  destruct H2 as (_ & Hsame & _ & _ & _ & _ & _ & Hs2 & _);
    [discriminate|reflexivity|reflexivity|].
  destruct H3 as (_ & _ & _ & _ & _ & _ & _ & Hs3 & _ & Hp3 & _);
    [discriminate|reflexivity|reflexivity|].
  split; [exact Hs1|]. split; [|split; [exact Hs2|split; [|split; [exact Hs3|exact Hp3]]]].
  - rewrite Hadd; [reflexivity|].
    intros Hin. apply (proj1 (list_elem_of_In _ _)) in Hin. cbn in Hin.
    intuition discriminate.
  - apply Hsame. rewrite Hadd.
    + apply elem_of_app. right. now left.
    + intros Hin. apply (proj1 (list_elem_of_In _ _)) in Hin. cbn in Hin.
      intuition discriminate.
Defined.

(** X16: a path that the update operator stored is accepted by the
    server start.  If [DebuggerPathUpdate.execute] answered [FINISHED]
    with a path other than the sentinel, and the server looks at the same
    files through an [abspath] that does not change what exists, then
    [DebugServerStart.execute] does not answer [CANCELLED]. *)
Theorem stored_path_is_accepted (s : Server) (waitForClient : bool)
    (prefs : Preferences) (ss : Session) :
  let updated := DebuggerPathUpdate_execute (disk s) prefs in
  let prefs' := snd (fst (fst updated)) in
  fst (fst (fst updated)) = Ok FINISHED ->
  path prefs' <> NOT_FOUND_MESSAGE ->
  (forall p, path_exists (disk s) (abspath s p) = path_exists (disk s) p) ->
  fst (DebugServerStart_execute s waitForClient prefs' ss) <> Ok CANCELLED.
Proof.
  cbv zeta. unfold DebuggerPathUpdate_execute.
  pose proof (check_for_debugpy_value (disk s)) as Hvalue.
  pose proof (proj2 (check_for_debugpy_commands_aux (disk s))) as Hexn.
  destruct (check_for_debugpy (disk s)) as [[found|e] evs]; cbn [fst snd] in *.
  - intros _ Hne Habs. destruct (Hvalue found eq_refl) as [->|Hfound]; [contradiction|].
    unfold DebugServerStart_execute. cbn [path port].
    destruct (String.eqb_spec found NOT_FOUND_MESSAGE) as [Heq|_]; [contradiction|].
    rewrite Habs. unfold contains_package in Hfound. rewrite Hfound. cbn [negb].
    cbv zeta. destruct (import_raises s _); [discriminate|].
    now destruct (maybe_wait s waitForClient _) as [[e|] ss'].
  - destruct (Hexn e eq_refl) as [-> _]. discriminate.
Qed.

Lemma stored_path_is_accepted_witness :
  fst (DebugServerStart_execute venv_server false
         (snd (fst (fst (DebuggerPathUpdate_execute sys_path_host default_preferences))))
         idle_session)
  <> Ok CANCELLED.
Proof.
  apply (stored_path_is_accepted venv_server false default_preferences idle_session).
  - reflexivity.
  - discriminate.
  - reflexivity.
Defined.

(** ** The package manager's own installation *)

(** One run of [install_pip]. *)
Lemma install_pip_run (bootstrap : gmap string string -> option exn * gmap string string)
    (i : Interpreter) (st : State) :
  let probe := {| argv := [sys_executable i; "-m"; "pip"; "--version"]; env := None |} in
  exists st',
    install_pip bootstrap i st
    = (match cannot_start i st probe with
       | Some msg => (Raise (OSError msg), i)
       | None =>
           if returncode i st probe =? 0 then (Ok tt, i)
           else
             match bootstrap (os_environ i) with
             | (Some e, environ) => (Raise e, with_environ environ i)
             | (None, environ) =>
                 (Ok tt, with_environ (delete "PIP_REQ_TRACKER" environ) i)
             end
       end, st')
    /\ spawned st' = (spawned st ++ [probe])%list
    /\ console st' = console st
    /\ same_but_logs st st'.
Proof.
  cbv zeta. unfold install_pip, subprocess_run.
  destruct (cannot_start i st _) as [msg|]; cbn [is_CalledProcessError].
  - eexists. split; [reflexivity|]. now repeat split.
  - destruct (returncode i st _ =? 0); cbn [is_CalledProcessError].
    + eexists. split; [reflexivity|]. now repeat split.
    + destruct (bootstrap (os_environ i)) as [[e|] environ];
        (eexists; split; [reflexivity|]; now repeat split).
Qed.

(** X17: [install_pip] probes the package manager exactly once, with
    [[sys.executable, "-m", "pip", "--version"]] and the inherited
    environment, and prints nothing.  When the probe cannot be started
    its [OSError] leaves the call.  When the probe exits with 0 the call
    returns and the interpreter is left as it was.  Otherwise
    [ensurepip] is run: what it raises leaves the call, with the
    environment as it left it; when it returns, the environment is the
    one it left with [PIP_REQ_TRACKER] removed and every other variable
    kept, so that no child spawned afterwards sees [PIP_REQ_TRACKER]. *)
Theorem install_pip_spec (bootstrap : gmap string string -> option exn * gmap string string)
    (i : Interpreter) (st : State) :
  let probe := {| argv := [sys_executable i; "-m"; "pip"; "--version"]; env := None |} in
  let run := install_pip bootstrap i st in
  let i' := snd (fst run) in
  spawned (snd run) = (spawned st ++ [probe])%list
  /\ console (snd run) = console st
  /\ same_but_logs st (snd run)
  /\ (forall msg, cannot_start i st probe = Some msg ->
        fst run = (Raise (OSError msg), i))
  /\ (cannot_start i st probe = None -> returncode i st probe = 0 ->
      fst run = (Ok tt, i))
  /\ (cannot_start i st probe = None -> returncode i st probe <> 0 ->
      forall environ,
        (forall e, bootstrap (os_environ i) = (Some e, environ) ->
           fst run = (Raise e, with_environ environ i))
        /\ (bootstrap (os_environ i) = (None, environ) ->
            fst (fst run) = Ok tt
            /\ os_environ i' !! "PIP_REQ_TRACKER" = None
            /\ child_environ i' !! "PIP_REQ_TRACKER" = None
            /\ (forall k, k <> "PIP_REQ_TRACKER" -> os_environ i' !! k = environ !! k)
            /\ sys_executable i' = sys_executable i
            /\ dependant_classes i' = dependant_classes i)).
Proof.
  cbv zeta.
  destruct (install_pip_run bootstrap i st) as (st' & -> & Hs & Hc & Hl).
  cbn [fst snd]. split; [exact Hs|]. split; [exact Hc|]. split; [exact Hl|].
  split; [|split].
  - now intros msg ->.
  - intros -> ->. reflexivity.
  - intros -> Hrc environ.
    destruct (Z.eqb_spec (returncode i st
                {| argv := [sys_executable i; "-m"; "pip"; "--version"]; env := None |}) 0)
      as [H0|_]; [contradiction|].
    split; [now intros e ->|]. intros ->. cbn [fst snd with_environ os_environ
      sys_executable dependant_classes].
    split; [reflexivity|]. split; [apply lookup_delete_eq|]. split.
    + unfold child_environ. cbn [os_environ].
      rewrite lookup_insert_ne by discriminate. apply lookup_delete_eq.
    + split; [|now split]. intros k Hk. now apply lookup_delete_ne.
Qed.

Lemma install_pip_spec_witness :
  let run := install_pip sample_bootstrap broken_interpreter running_state in
  fst (fst run) = Ok tt
  /\ os_environ (snd (fst run)) !! "PIP_REQ_TRACKER" = None
  /\ os_environ (snd (fst run)) !! "HOME" = Some "/home/ann"
  /\ fst (install_pip sample_bootstrap lost_interpreter running_state)
     = (Raise (OSError "No such file or directory"), lost_interpreter).
Proof.
  cbv zeta.
  pose proof (install_pip_spec sample_bootstrap broken_interpreter running_state)
    as (_ & _ & _ & _ & _ & Hfailed).
  pose proof (install_pip_spec sample_bootstrap lost_interpreter running_state)
    as (_ & _ & _ & Hlost & _).
  cbv zeta in Hfailed, Hlost.
  destruct (Hfailed eq_refl) with
    (environ := <["PIP_REQ_TRACKER" := "/tmp/pip-req-tracker-x"]>
                  (os_environ broken_interpreter)) as (_ & Hok);
    [vm_compute; discriminate|].
  destruct (Hok eq_refl) as (Hrun & Hgone & _ & Hkept & _).
  split; [exact Hrun|]. split; [exact Hgone|]. split.
  - rewrite Hkept by discriminate. reflexivity.
  - now apply Hlost.
Defined.

(** ** The panel *)

Section PanelFacts.
Variables (i : Interpreter) (cfg : Settings) (st : State).

Lemma buttons_of_app (a b : list BoxItem) :
  buttons_of (a ++ b) = (buttons_of a ++ buttons_of b)%list.
Proof. unfold buttons_of. apply flat_map_app. Qed.

(** For a module name without a dot the version query is a pure read. *)
Lemma check_module_version_top (dep : Dependency) :
  top_level (module dep) = true ->
  check_module_version i cfg (module dep) (package dep) st
  = (Ok (shown_version i cfg st dep), st).
Proof.
  intros Htop. unfold check_module_version, shown_version, mbind, M_bind, try_except.
  rewrite (find_spec_top_level i _ st Htop).
  destruct (sys_modules st !! module dep) as [m|].
  - now destruct (module_spec m).
  - now destruct (finder i (spawned st) (module dep)).
Qed.

(** The button the panel draws for one dependency. *)
Lemma dependency_rows_buttons (dep : Dependency) :
  top_level (module dep) = true ->
  exists items,
    dependency_rows i cfg dep st = (Ok tt, items, st)
    /\ buttons_of items
       = if manage_individually cfg then [own_button i cfg st dep] else [].
Proof.
  intros Htop. unfold dependency_rows, draw_bind, quiet, put, draw_ret, own_button.
  rewrite (check_module_version_top dep Htop).
  destruct (manage_individually cfg); [|now eexists].
  destruct (shown_version i cfg st dep); now eexists.
Qed.

Lemma all_rows_buttons (deps : list Dependency) :
  Forall (fun dep => top_level (module dep) = true) deps ->
  exists items,
    all_dependency_rows i cfg deps st = (Ok tt, items, st)
    /\ buttons_of items
       = if manage_individually cfg then map (own_button i cfg st) deps else [].
Proof.
  induction 1 as [|dep deps Htop _ IH].
  - exists []. split; [reflexivity|]. now destruct (manage_individually cfg).
  - cbn [all_dependency_rows]. unfold draw_bind.
    destruct (dependency_rows_buttons dep Htop) as (items1 & -> & Hb1).
    destruct IH as (items2 & -> & Hb2).
    exists (items1 ++ items2)%list. split; [reflexivity|].
    rewrite buttons_of_app, Hb1, Hb2. now destruct (manage_individually cfg).
Qed.

Lemma select_own_package (dep : Dependency) (deps : list Dependency) :
  In dep deps -> In dep (select_dependencies (package dep) deps).
Proof.
  intros Hin. unfold select_dependencies.
  destruct (String.eqb (package dep) EmptyString); [exact Hin|].
  apply filter_In. split; [exact Hin|apply String.eqb_refl].
Qed.

End PanelFacts.

(** X18: the buttons of the dependency panel.  Without a declared
    dependency list, or without the main globals, the panel shows one
    label and no button.  Otherwise, with module names without a dot,
    drawing returns and changes nothing, and when dependencies are
    managed individually the panel shows exactly one button per
    dependency, in order: uninstall when an installed version is known,
    install when not, each carrying the package of its dependency, so
    that the operator it starts selects that dependency; when they are
    managed together it shows exactly one install and one uninstall
    button, both carrying the empty package name, with which the
    operators select every dependency.  An exception of [find_spec]
    other than [ValueError], as the [ModuleNotFoundError] for a dotted
    name without its parent package, is not caught: raised for the first
    dependency it leaves the panel before anything was drawn. *)
Theorem dependency_manager_ui_buttons (i : Interpreter) (cfg : Settings) (st : State) :
  (dependencies st = None \/ main_globals_assigned cfg = false ->
   exists text, dependency_manager_ui i cfg st = (Ok tt, [BoxLabel text], st))
  /\ (forall deps,
        dependencies st = Some deps -> main_globals_assigned cfg = true ->
        Forall (fun dep => top_level (module dep) = true) deps ->
        exists items,
          dependency_manager_ui i cfg st = (Ok tt, items, st)
          /\ (manage_individually cfg = true ->
              buttons_of items = map (own_button i cfg st) deps
              /\ (forall dep, In dep deps ->
                    In dep (select_dependencies (package dep) deps)))
          /\ (manage_individually cfg = false ->
              buttons_of items
              = [Button InstallOperator "Install all depencies" "CONSOLE" EmptyString;
                 Button UninstallOperator "Unistall all depencies" "CONSOLE"
                   EmptyString]
              /\ select_dependencies EmptyString deps = deps))
  /\ (forall dep rest e st1,
        dependencies st = Some (dep :: rest) -> main_globals_assigned cfg = true ->
        find_spec i (module dep) st = (Raise e, st1) ->
        is_ValueError e = false ->
        dependency_manager_ui i cfg st = (Raise e, [], st1)).
Proof.
  split; [|split].
  - intros Hnone. unfold dependency_manager_ui, put.
    destruct (dependencies st) as [deps|].
    + destruct Hnone as [Hd|Hg]; [discriminate|]. rewrite Hg. cbn. eauto.
    + eauto.
  - intros deps Hdeps Hglobals Htop. unfold dependency_manager_ui.
    rewrite Hdeps, Hglobals. cbn [negb]. unfold draw_bind.
    destruct (all_rows_buttons i cfg st deps Htop) as (items & -> & Hb).
    destruct (manage_individually cfg) eqn:Hind.
    + exists (items ++ [])%list. split; [reflexivity|]. split; [|discriminate].
      intros _. rewrite app_nil_r. split; [exact Hb|].
      intros dep. apply select_own_package.
    + destruct (check_all_dependencies_top i deps st Hdeps Htop) as (b & -> & _).
      eexists. split; [reflexivity|]. split; [discriminate|].
      intros _. rewrite buttons_of_app, Hb. split; reflexivity.
  - intros dep rest e st1 Hdeps Hglobals Hfind Hval. unfold dependency_manager_ui.
    rewrite Hdeps, Hglobals. cbn [negb all_dependency_rows].
    unfold draw_bind, dependency_rows, draw_bind, quiet, check_module_version,
      mbind, M_bind, try_except.
    now rewrite Hfind, Hval.
Qed.

Lemma dependency_manager_ui_buttons_witness :
  (exists items,
      dependency_manager_ui (interpreter 0) (panel_settings true) running_state
      = (Ok tt, items, running_state)
      /\ buttons_of items
         = [Button UninstallOperator "Unistall depencies" "CONSOLE" "debugpy";
            Button InstallOperator "Install depencies" "CONSOLE"
              "opencv-contrib-python"])
  /\ (exists items,
        dependency_manager_ui (interpreter 0) (panel_settings false) running_state
        = (Ok tt, items, running_state)
        /\ buttons_of items
           = [Button InstallOperator "Install all depencies" "CONSOLE" EmptyString;
              Button UninstallOperator "Unistall all depencies" "CONSOLE" EmptyString])
  /\ (exists text,
        dependency_manager_ui (interpreter 0) (panel_settings true) (fresh_state None)
        = (Ok tt, [BoxLabel text], fresh_state None))
  /\ dependency_manager_ui (interpreter 0) (panel_settings true)
       (fresh_state (Some [protobuf_dependency]))
     = (Raise (ModuleNotFoundError "google"), [],
        fresh_state (Some [protobuf_dependency])).
Proof.
  pose proof (dependency_manager_ui_buttons (interpreter 0) (panel_settings true)
                running_state) as (_ & Hind & _).
  pose proof (dependency_manager_ui_buttons (interpreter 0) (panel_settings false)
                running_state) as (_ & Hall & _).
  pose proof (dependency_manager_ui_buttons (interpreter 0) (panel_settings true)
                (fresh_state None)) as (Hnone & _).
  pose proof (dependency_manager_ui_buttons (interpreter 0) (panel_settings true)
                (fresh_state (Some [protobuf_dependency]))) as (_ & _ & Hraise).
  destruct (Hind _ eq_refl eq_refl) as (items1 & Hrun1 & Hind' & _);
    [repeat constructor|].
  destruct (Hall _ eq_refl eq_refl) as (items2 & Hrun2 & _ & Hall');
    [repeat constructor|].
  split; [|split; [|split]].
  - exists items1. split; [exact Hrun1|]. rewrite (proj1 (Hind' eq_refl)). reflexivity.
  - exists items2. split; [exact Hrun2|]. exact (proj1 (Hall' eq_refl)).
  - apply Hnone. now left.
  - apply (Hraise protobuf_dependency []); reflexivity.
Defined.

(** ** The earlier install operator *)

(** X19: in [addon_dependency_manager.py] a failed install reaches the
    operator.  When [install_pip] returned and the package manager, once
    started, exits with a status other than 0 for the first dependency,
    [execute] answers [CANCELLED] and reports that [CalledProcessError]
    as an error; it has spawned the probe of the package manager and
    that one install, and nothing else happened: no later dependency was
    installed, nothing was imported and no global name was bound.  What
    [install_pip] raises is reported in the same way when it is an
    [ImportError], and leaves the operator otherwise; so does the
    [OSError] of an install that cannot be started. *)
Theorem legacy_failed_install_is_reported
    (lib_import_module : string -> M PyModule) (lib_reload : PyModule -> M PyModule)
    (bootstrap : gmap string string -> option exn * gmap string string)
    (i : Interpreter) (dep : Legacy.Dependency) (rest : list Legacy.Dependency)
    (ns : Legacy.Namespace) :
  let install := [sys_executable i; "-m"; "pip"; "install"; "--upgrade";
                  default (Legacy.module dep) (Legacy.package dep)] in
  let run := Legacy.DEPENDENCY_OT_install_dependencies_execute
               lib_import_module lib_reload bootstrap i (dep :: rest) ns in
  (forall i1 st1,
      install_pip bootstrap i (Legacy.base ns) = (Ok tt, i1, st1) ->
      let child := {| argv := install;
                      env := Some (<["PYTHONNOUSERSITE" := "1"]> (os_environ i1)) |} in
      (cannot_start i st1 child = None ->
       returncode i st1 child <> 0 ->
       fst run = Ok CANCELLED
       /\ reports (Legacy.base (snd run))
          = (reports (Legacy.base ns)
             ++ [("ERROR", CalledProcessError (returncode i st1 child) install)])%list
       /\ map argv (spawned (Legacy.base (snd run)))
          = (map argv (spawned (Legacy.base ns))
             ++ [[sys_executable i; "-m"; "pip"; "--version"]; install])%list
       /\ Legacy.globals (snd run) = Legacy.globals ns
       /\ sys_modules (Legacy.base (snd run)) = sys_modules (Legacy.base ns)
       /\ executed (Legacy.base (snd run)) = executed (Legacy.base ns))
      /\ (forall msg,
            cannot_start i st1 child = Some msg ->
            fst run = Raise (OSError msg)
            /\ reports (Legacy.base (snd run)) = reports (Legacy.base ns)))
  /\ (forall e i1 st1,
        install_pip bootstrap i (Legacy.base ns) = (Raise e, i1, st1) ->
        (is_install_error e = true ->
         fst run = Ok CANCELLED
         /\ reports (Legacy.base (snd run))
            = (reports (Legacy.base ns) ++ [("ERROR", e)])%list)
        /\ (is_install_error e = false ->
            fst run = Raise e
            /\ reports (Legacy.base (snd run)) = reports (Legacy.base ns))).
Proof.
  cbv zeta.
  destruct (install_pip_run bootstrap i (Legacy.base ns)) as (st' & Hpip & Hs1 & _ & Hl1).
  destruct Hl1 as (_ & Hm & _ & He & Hr & _).
  assert (Hkeeps : forall r i1 st1,
            install_pip bootstrap i (Legacy.base ns) = (r, i1, st1) ->
            st1 = st' /\ sys_executable i1 = sys_executable i
            /\ cannot_start i1 = cannot_start i /\ returncode i1 = returncode i).
  { intros r i1 st1 Heq. rewrite Hpip in Heq.
    destruct (cannot_start i (Legacy.base ns) _); [now inversion Heq|].
    destruct (returncode i (Legacy.base ns) _ =? 0); [now inversion Heq|].
    destruct (bootstrap (os_environ i)) as [[e|] environ]; now inversion Heq. }
  split.
  - intros i1 st1 Hrun. destruct (Hkeeps _ _ _ Hrun) as (-> & Hexe & Hcs & Hrc).
    unfold Legacy.DEPENDENCY_OT_install_dependencies_execute. rewrite Hrun.
    cbn [Legacy.install_all]. unfold Legacy.install_and_import_module, Legacy.lift.
    cbn [Legacy.base Legacy.globals]. unfold subprocess_run.
    rewrite Hexe, Hcs, Hrc. split.
    + intros Hstart Hfail. rewrite Hstart.
      destruct (Z.eqb_spec (returncode i st'
                  {| argv := [sys_executable i; "-m"; "pip"; "install"; "--upgrade";
                              default (Legacy.module dep) (Legacy.package dep)];
                     env := Some (<["PYTHONNOUSERSITE" := "1"]> (os_environ i1)) |}) 0)
        as [H0|_]; [contradiction|].
      cbn [is_install_error is_CalledProcessError orb]. unfold report.
      cbn [fst snd Legacy.base Legacy.globals reports spawned sys_modules executed].
      rewrite Hs1, Hm, He, Hr, !map_app, <- app_assoc. now repeat split.
    + intros msg Hstart. rewrite Hstart.
      cbn [is_install_error is_CalledProcessError is_ImportError orb fst snd
           Legacy.base reports].
      now split.
  - intros e i1 st1 Hrun. destruct (Hkeeps _ _ _ Hrun) as (-> & _).
    unfold Legacy.DEPENDENCY_OT_install_dependencies_execute. rewrite Hrun.
    split; intros ->; unfold Legacy.lift, report;
      cbn [fst snd Legacy.base Legacy.globals reports]; now rewrite Hr.
Qed.

Lemma legacy_failed_install_is_reported_witness :
  let run := Legacy.DEPENDENCY_OT_install_dependencies_execute
               sample_import_module sample_reload sample_bootstrap (interpreter 1)
               legacy_dependencies idle_namespace in
  fst run = Ok CANCELLED
  /\ map argv (spawned (Legacy.base (snd run)))
     = [["/opt/blender/4.2/python/bin/python3.11"; "-m"; "pip"; "--version"];
        ["/opt/blender/4.2/python/bin/python3.11"; "-m"; "pip"; "install"; "--upgrade";
         "debugpy"]].
Proof.
  cbv zeta.
  pose proof (legacy_failed_install_is_reported sample_import_module sample_reload
                sample_bootstrap (interpreter 1)
                {| Legacy.display_name := "Debugpy"; Legacy.module := "debugpy";
                   Legacy.package := None; Legacy.name := None;
                   Legacy.installed := false |}
                [{| Legacy.display_name := "OpenCV"; Legacy.module := "cv2";
                    Legacy.package := Some "opencv-contrib-python";
                    Legacy.name := Some "cv"; Legacy.installed := false |}]
                idle_namespace) as [H _].
  cbv zeta in H.
  destruct (H _ _ eq_refl) as [Hfail _].
  destruct Hfail as (Hs & _ & Hsp & _); [reflexivity|discriminate|].
  split; [exact Hs|exact Hsp].
Defined.

(** X20: the [import_module] of [addon_dependency_manager.py] returns
    the same module on every call and reloads it from the second call on.
    When the global name is not bound and [importlib.import_module]
    returns [m], the call binds the name to [m] and returns [m]; a second
    call runs [importlib.reload] on [m], leaves the binding alone and,
    unless the reload raises, returns [m] again. *)
Theorem legacy_import_module_twice
    (lib_import_module : string -> M PyModule) (lib_reload : PyModule -> M PyModule)
    (module_name : string) (global_name : option string) (ns : Legacy.Namespace)
    (m : PyModule) (st1 : State) :
  let name := default module_name global_name in
  let first := Legacy.import_module lib_import_module lib_reload module_name
                 global_name ns in
  let second := Legacy.import_module lib_import_module lib_reload module_name
                  global_name (snd first) in
  Legacy.globals ns !! name = None ->
  lib_import_module module_name (Legacy.base ns) = (Ok m, st1) ->
  first = (Ok m, {| Legacy.base := st1;
                    Legacy.globals := <[name := m]> (Legacy.globals ns) |})
  /\ Legacy.base (snd second) = snd (lib_reload m st1)
  /\ Legacy.globals (snd second) = Legacy.globals (snd first)
  /\ (fst second = Ok m \/ exists e, fst (lib_reload m st1) = Raise e
                                     /\ fst second = Raise e).
Proof.
  cbv zeta. intros Hfree Himport.
  assert (Hfirst : Legacy.import_module lib_import_module lib_reload module_name
                     global_name ns
                   = (Ok m, {| Legacy.base := st1;
                               Legacy.globals :=
                                 <[default module_name global_name := m]>
                                   (Legacy.globals ns) |})).
  { unfold Legacy.import_module, Legacy.lift. now rewrite Hfree, Himport. }
  rewrite Hfirst. split; [reflexivity|]. cbn [snd].
  unfold Legacy.import_module, Legacy.lift. cbn [Legacy.globals Legacy.base].
  rewrite lookup_insert_eq.
  destruct (lib_reload m st1) as [[m'|e] st2]; cbn [fst snd Legacy.globals Legacy.base].
  - rewrite lookup_insert_eq. cbn. repeat split. now left.
  - repeat split. right. now exists e.
Qed.

Lemma legacy_import_module_twice_witness :
  let first := Legacy.import_module sample_import_module sample_reload "debugpy" None
                 idle_namespace in
  let second := Legacy.import_module sample_import_module sample_reload "debugpy" None
                  (snd first) in
  fst first = Ok loaded_module
  /\ executed (Legacy.base (snd second)) = [debugpy_spec; debugpy_spec].
Proof.
  cbv zeta.
  pose proof (legacy_import_module_twice sample_import_module sample_reload "debugpy"
                None idle_namespace loaded_module
                (snd (sample_import_module "debugpy" (fresh_state None)))) as H.
  cbv zeta in H. destruct H as (Hfirst & Hbase & _); [reflexivity|reflexivity|].
  split; [now rewrite Hfirst|]. rewrite Hbase. reflexivity.
Defined.

(** ** Two functions that do less, or more, than their names say *)





(** X22: the poller counts every event, not only timer ticks.  An event
    that is not a timer tick is passed through without a line printed,
    whatever the counter and the connection flag are; but after any
    events [evs] the answer to the next timer tick is decided by the
    number of all events delivered: it is [CANCELLED] as soon as that
    number exceeds the limit, even if no timer tick came before. *)
Theorem modal_counts_every_event (prefs : Preferences) (op : DebuggerCheck)
    (evs : list (string * bool)) (flag : bool) :
  (forall event_type,
      event_type <> "TIMER" ->
      fst (modal op event_type prefs flag) = (PASS_THROUGH, []))
  /\ fst (fst (modal (after_events prefs evs op) "TIMER" prefs flag))
     = (if count op + Z.of_nat (length evs) + 1 >? modal_limit op then CANCELLED
        else if flag then FINISHED else PASS_THROUGH).
Proof.
  split.
  - intros event_type Hne. unfold modal.
    destruct (String.eqb_spec event_type "TIMER") as [->|_]; [contradiction|reflexivity].
  - rewrite modal_timer_status.
    destruct (after_events_timer prefs evs op) as (_ & -> & ->). reflexivity.
Qed.

Lemma modal_counts_every_event_witness :
  fst (modal five_ticks "MOUSEMOVE" default_preferences true) = (PASS_THROUGH, [])
  /\ fst (fst (modal (after_events default_preferences
                        [("MOUSEMOVE", true); ("MOUSEMOVE", true); ("MOUSEMOVE", true);
                         ("MOUSEMOVE", true); ("MOUSEMOVE", true)] five_ticks)
                 "TIMER" default_preferences true))
     = CANCELLED.
Proof.
  pose proof (modal_counts_every_event default_preferences five_ticks
                [("MOUSEMOVE", true); ("MOUSEMOVE", true); ("MOUSEMOVE", true);
                 ("MOUSEMOVE", true); ("MOUSEMOVE", true)] true) as [Hother Htimer].
  split; [apply Hother; discriminate|exact Htimer].
Defined.
